(** * ZapForm backend: registration and form submission relayed to WhatsApp

    A shallow embedding of [src/main.py] and [src/database.py].

    - Python strings are [string]s, one [ascii] per code unit.  The case
      mapping of [str.title] and the test [str.isdigit] are those of the
      ASCII range; every other code unit is uncased and is not a digit.
    - A request body ([Dict[str, Any]]) is an association list in insertion
      order whose values are JSON strings or [null], the value type of the
      form data model.
    - Handlers run in a state-and-exception monad over a [world]: the
      table [users], the ORM session, the clock and the trace of effects.
      What the outside decides (the random bytes behind [uuid.uuid4], the
      answer of the WhatsApp provider, the SMTP relay, the process
      environment) is read from an [env]. *)

From Stdlib Require Import ZArith List String Ascii Bool Lia DecimalString.
Import ListNotations.
Local Open Scope list_scope.
Local Open Scope string_scope.

(** ** Python strings *)

Module PyStr.

Definition nl : string := String "010"%char EmptyString.

Definition code (c : ascii) : nat := nat_of_ascii c.

Definition isupper (c : ascii) : bool := (65 <=? code c)%nat && (code c <=? 90)%nat.
Definition islower (c : ascii) : bool := (97 <=? code c)%nat && (code c <=? 122)%nat.
Definition iscased (c : ascii) : bool := isupper c || islower c.

(** [str.isdigit], on one character. *)
Definition isdigit (c : ascii) : bool := (48 <=? code c)%nat && (code c <=? 57)%nat.

Definition upper (c : ascii) : ascii :=
  if islower c then ascii_of_nat (code c - 32) else c.
Definition lower (c : ascii) : ascii :=
  if isupper c then ascii_of_nat (code c + 32) else c.

Fixpoint map (f : ascii -> ascii) (s : string) : string :=
  match s with
  | EmptyString => EmptyString
  | String c rest => String (f c) (map f rest)
  end.

(** [filter(p, s)] joined back into a string: [''.join(filter(p, s))]. *)
Fixpoint filter (p : ascii -> bool) (s : string) : string :=
  match s with
  | EmptyString => EmptyString
  | String c rest => if p c then String c (filter p rest) else filter p rest
  end.

(** [s.replace(old, new)] for one-character [old] and [new]. *)
Definition replace (old new : ascii) (s : string) : string :=
  map (fun c => if Ascii.eqb c old then new else c) s.

(** [s.title()]: a cased character is upper-cased when the character before
    it is not cased, lower-cased otherwise. *)
Fixpoint title_from (previous_is_cased : bool) (s : string) : string :=
  match s with
  | EmptyString => EmptyString
  | String c rest =>
      String (if previous_is_cased then lower c else upper c)
             (title_from (iscased c) rest)
  end.

Definition title (s : string) : string := title_from false s.

(** [str(n)] for an integer. *)
Definition of_int (n : Z) : string := NilZero.string_of_int (Z.to_int n).

(** [s.split("\n")]. *)
Fixpoint split_lines_from (line : string) (s : string) : list string :=
  match s with
  | EmptyString => [line]
  | String c rest =>
      if Ascii.eqb c "010"%char
      then line :: split_lines_from EmptyString rest
      else split_lines_from (line ++ String c EmptyString) rest
  end.

Definition split_lines (s : string) : list string :=
  split_lines_from EmptyString s.


End PyStr.

(** ** Values *)

(** A JSON document, as [response.json()] and the response bodies have it.
    Numbers are the integers. *)
#[local] Set Warnings "-register-all".
Inductive json : Type :=
| JNull
| JBool (b : bool)
| JNum (n : Z)
| JStr (s : string)
| JArr (items : list json)
| JObj (members : list (string * json)).

(** A value of the submitted mapping: a string, or [None]. *)
Inductive value : Type :=
| VNone
| VStr (s : string).

(** Truth value of [value] in a condition ([if value], [not value]). *)
Definition truthy (v : value) : bool :=
  match v with
  | VNone => false
  | VStr s => negb (s =? "")
  end.

(** [f"{value}"]. *)
Definition py_str (v : value) : string :=
  match v with
  | VNone => "None"
  | VStr s => s
  end.

(** A [dict] with string keys, in insertion order; keys are distinct. *)
Definition dict (V : Type) : Type := list (string * V).

Fixpoint dict_find {V : Type} (d : dict V) (key : string) : option V :=
  match d with
  | [] => None
  | (k, v) :: rest => if k =? key then Some v else dict_find rest key
  end.

(** [d.get(key)] on the submitted mapping: [None] when the key is absent. *)
Definition dict_get (d : dict value) (key : string) : value :=
  match dict_find d key with
  | Some v => v
  | None => VNone
  end.

(** ** Message formatter ([send_whatsapp_message], lines 161-168) *)

Definition message_header : string :=
  "🔔 *New Contact Form Submission*" ++ PyStr.nl ++ PyStr.nl.

Definition message_footer : string :=
  PyStr.nl ++ "_Sent via ZapForm_".

(** One turn of the loop over [form_data.items()]. *)
Definition format_step (message : string) (item : string * value) : string :=
  let '(key, v) := item in
  if negb (key =? "api_key") && truthy v then
    let formatted_key := PyStr.title (PyStr.replace "_" " " key) in
    message ++ "*" ++ formatted_key ++ ":* " ++ py_str v ++ PyStr.nl
  else message.

Definition format_message (form_data : dict value) : string :=
  fold_left format_step form_data message_header ++ message_footer.

(** [clean_recipient], line 172. *)
Definition clean_recipient (recipient_number : string) : string :=
  PyStr.filter PyStr.isdigit recipient_number.

(** ** Exceptions *)

(** [HTTPException] and, by class name, every other subclass of
    [Exception] that the handlers can meet. *)
Inductive exn : Type :=
| HTTPException (status_code : Z) (detail : string)
| Error (cls : string).

(** ** The table [users] ([src/database.py]) *)

Module Database.

(** An instance of the mapped class [User]; [id], [created_at] and
    [is_active] are [None] until the row is inserted. *)
Record User : Type := {
  id : option Z;
  name : string;
  email : string;
  api_key : string;
  whatsapp_token : string;
  phone_number_id : string;
  recipient_number : string;
  created_at : option Z;
  is_active : option bool
}.

(** The queries the handlers send. *)
Inductive query : Type :=
| ByEmail (email : string)
| ByActiveApiKey (api_key : string)
| Refresh (api_key : string).

(** [filter(User.email == email)]. *)
Definition has_email (e : string) (u : User) : bool := email u =? e.

(** [filter(User.api_key == api_key, User.is_active == True)]. *)
Definition has_active_api_key (k : string) (u : User) : bool :=
  (api_key u =? k) &&
  match is_active u with Some true => true | _ => false end.

(** The two [unique=True] columns: a row may not repeat the email or the
    API key of a stored row. *)
Definition violates_unique (rows : list User) (u : User) : bool :=
  existsb (fun r => (email r =? email u) || (api_key r =? api_key u)) rows.

(** The row written for an object: the key assigned by the table, and
    the column defaults [created_at = utcnow()], [is_active = True]. *)
Definition inserted (u : User) (next : Z) (clock : Z) : User :=
  {| id := Some next;
     name := name u; email := email u; api_key := api_key u;
     whatsapp_token := whatsapp_token u;
     phone_number_id := phone_number_id u;
     recipient_number := recipient_number u;
     created_at := match created_at u with Some t => Some t | None => Some clock end;
     is_active := match is_active u with Some b => Some b | None => Some true end |}.

(** The flush of a commit: the pending objects are inserted in order;
    [None] when a unique constraint refuses one of them. *)
Fixpoint flush (now : nat -> Z) (pending rows : list User) (next : Z) (ticks : nat)
  : option (list User * Z * nat) :=
  match pending with
  | [] => Some (rows, next, ticks)
  | u :: rest =>
      if violates_unique rows u then None
      else flush now rest (rows ++ [inserted u next (now ticks)])%list (next + 1)%Z (S ticks)
  end.

Definition count_email (e : string) (rows : list User) : nat :=
  List.length (List.filter (has_email e) rows).

End Database.

Import Database.

(** ** Effects *)

(** The lines the handlers print, by call site. *)
Inductive log_line : Type :=
| LogMockEmail (email name api_key : string)
| LogEmailSent (email : string)
| LogEmailFailed (error : exn) (email api_key : string)
| LogSending (recipient_number : string)
| LogWhatsAppSent (result : json)
| LogWhatsAppApiError (status_code : Z) (text : string)
| LogWhatsAppFailed (error : exn)
| LogRegistrationError (e : exn)
| LogSubmissionError (e : exn).

Record http_request : Type := {
  url : string;
  headers : list (string * string);
  payload : json
}.

(** What [requests.post] returns: [json_body] is [None] when
    [response.json()] raises. *)
Record http_response : Type := {
  status_code : Z;
  text : string;
  json_body : option json
}.

Record smtp_mail : Type := {
  mail_from : string;
  mail_to : string;
  mail_subject : string;
  mail_body : string;
  smtp_hostname : option string;
  smtp_port : option string;
  smtp_username : string;
  smtp_password : string
}.

Inductive event : Type :=
| Printed (line : log_line)
| DbQuery (q : query)
| DbCommit
| DbRollback
| HttpPost (request : http_request)
| SmtpSend (mail : smtp_mail).

(** What the outside decides. [urandom16] is the integer of the 16 bytes
    behind [uuid.uuid4()], [now n] the [n]-th reading of the clock in whole
    seconds. *)
Record env : Type := {
  urandom16 : Z;
  now : nat -> Z;
  requests_post : http_request -> http_response + exn;
  aiosmtplib_send : smtp_mail -> option exn;
  BREVO_API_KEY : option string;
  BREVO_SENDER_EMAIL : option string;
  BREVO_SMTP_SERVER : option string;
  BREVO_SMTP_PORT : option string
}.

Record world : Type := {
  users : list User;
  session : list User;
  next_id : Z;
  ticks : nat;
  trace : list event
}.

Inductive outcome (A : Type) : Type :=
| Return (a : A)
| Raise (e : exn).
Arguments Return {A} a.
Arguments Raise {A} e.

Definition M (A : Type) : Type := world -> outcome A * world.

Definition ret {A : Type} (a : A) : M A := fun w => (Return a, w).

Definition raise {A : Type} (e : exn) : M A := fun w => (Raise e, w).

Definition bind {A B : Type} (m : M A) (f : A -> M B) : M B :=
  fun w =>
    match m w with
    | (Return a, w') => f a w'
    | (Raise e, w') => (Raise e, w')
    end.

(** [try: body except Exception as e: handler]. *)
Definition try_except {A : Type} (body : M A) (handler : exn -> M A) : M A :=
  fun w =>
    match body w with
    | (Return a, w') => (Return a, w')
    | (Raise e, w') => handler e w'
    end.

Notation "x <- m ;; k" := (bind m (fun x => k))
  (at level 61, m at next level, right associativity).
Notation "m ;; k" := (bind m (fun _ => k))
  (at level 61, right associativity).

Definition emit (ev : event) : M unit :=
  fun w =>
    (Return tt,
     {| users := users w; session := session w; next_id := next_id w;
        ticks := ticks w; trace := (trace w ++ [ev])%list |}).

Definition print (line : log_line) : M unit := emit (Printed line).

(** [int(datetime.now().timestamp())]. *)
Definition timestamp (E : env) : M Z :=
  fun w =>
    (Return (now E (ticks w)),
     {| users := users w; session := session w; next_id := next_id w;
        ticks := S (ticks w); trace := trace w |}).

(** ** The session ([db.query], [db.add], [db.commit], [db.refresh],
    [db.rollback]) *)

Definition set_store (rows pending : list User) (next : Z) (t : nat) (w : world) : world :=
  {| users := rows; session := pending; next_id := next; ticks := t; trace := trace w |}.

(** [db.query(User).filter(...).first()]. *)
Definition query_first (q : query) (p : User -> bool) : M (option User) :=
  emit (DbQuery q) ;;
  fun w => (Return (find p (users w)), w).

Definition db_add (u : User) : M unit :=
  fun w =>
    (Return tt, set_store (users w) (session w ++ [u])%list (next_id w) (ticks w) w).

(** A refused insert raises and leaves the table as it was. *)
Definition db_commit (E : env) : M unit :=
  emit DbCommit ;;
  fun w =>
    match flush (now E) (session w) (users w) (next_id w) (ticks w) with
    | Some (rows, next, t) => (Return tt, set_store rows [] next t w)
    | None => (Raise (Error "IntegrityError"), w)
    end.

(** The object is reloaded from its row; the row is found by the unique
    column [api_key] of the object. *)
Definition db_refresh (u : User) : M User :=
  emit (DbQuery (Refresh (api_key u))) ;;
  fun w =>
    match find (fun r => api_key r =? api_key u) (users w) with
    | Some r => (Return r, w)
    | None => (Raise (Error "InvalidRequestError"), w)
    end.

Definition db_rollback : M unit :=
  emit DbRollback ;;
  fun w => (Return tt, set_store (users w) [] (next_id w) (ticks w) w).

(** ** [uuid.uuid4().hex] *)

Module Uuid.

(** [UUID(bytes=os.urandom(16), version=4).int]: the variant bits are set
    to binary 10 and the version digit to 4. *)
Definition uuid4_int (r : Z) : Z :=
  let i := Z.lor (Z.land r (Z.lnot (Z.shiftl 0xc000 48))) (Z.shiftl 0x8000 48) in
  Z.lor (Z.land i (Z.lnot (Z.shiftl 0xf000 64))) (Z.shiftl 4 76).

Definition hex_digit (d : Z) : ascii :=
  match d with
  | 0 => "0" | 1 => "1" | 2 => "2" | 3 => "3"
  | 4 => "4" | 5 => "5" | 6 => "6" | 7 => "7"
  | 8 => "8" | 9 => "9" | 10 => "a" | 11 => "b"
  | 12 => "c" | 13 => "d" | 14 => "e" | 15 => "f"
  | _ => "?"
  end%Z%char.

(** The hexadecimal digit of weight [16^k]. *)
Definition nibble (n : Z) (k : nat) : Z :=
  Z.land (Z.shiftr n (4 * Z.of_nat k)) 15.

(** The [digits] lowest hexadecimal digits, the most significant first. *)
Fixpoint hex_from (n : Z) (digits : nat) : string :=
  match digits with
  | O => EmptyString
  | S k => String (hex_digit (nibble n k)) (hex_from n k)
  end.

(** ['%032x' % n]. *)
Definition hex (n : Z) : string := hex_from n 32.


End Uuid.

(** [f"zf_{uuid.uuid4().hex[:24]}"], line 221. *)
Definition generate_api_key (E : env) : string :=
  "zf_" ++ substring 0 24 (Uuid.hex (Uuid.uuid4_int (urandom16 E))).

(** ** Registration request *)

Module Registration.

Record UserRegistration : Type := {
  name : string;
  email : string;
  whatsapp_token : string;
  phone_number_id : string;
  recipient_number : string;
  terms : bool
}.

(** The messages of the validators of [UserRegistration], lines 53-84. *)
Definition validator_messages : list string :=
  [ "You must agree to the terms and conditions";
    "Invalid email format";
    "Name is required";
    "WhatsApp token is required";
    "Phone Number ID is required";
    "Recipient number is required" ].

End Registration.

(** ** [send_api_key_email] *)

Definition opt_truthy (o : option string) : bool :=
  match o with
  | Some s => negb (s =? "")
  | None => false
  end.

Definition opt_string (o : option string) : string :=
  match o with
  | Some s => s
  | None => "None"
  end.

Definition api_key_email_body (name api_key : string) : string :=
  "Hi " ++ name ++ "," ++ PyStr.nl ++ PyStr.nl ++
  "Thanks for registering with ZapForm!" ++ PyStr.nl ++ PyStr.nl ++
  "Here is your API Key: " ++ api_key ++ PyStr.nl ++ PyStr.nl ++
  "You can now start integrating ZapForm into your website. Simply add a form with your API key and start receiving WhatsApp notifications for every submission." ++ PyStr.nl ++ PyStr.nl ++
  "For documentation and examples, visit our website." ++ PyStr.nl ++ PyStr.nl ++
  "Best regards," ++ PyStr.nl ++
  "The ZapForm Team".

(** [await aiosmtplib.send(...)]. *)
Definition smtp_send (E : env) (mail : smtp_mail) : M unit :=
  emit (SmtpSend mail) ;;
  match aiosmtplib_send E mail with
  | Some error => raise error
  | None => ret tt
  end.

Definition send_api_key_email (E : env) (email name api_key : string) : M bool :=
  try_except
    (let smtp_server := BREVO_SMTP_SERVER E in
     let smtp_port := BREVO_SMTP_PORT E in
     let sender_email := BREVO_SENDER_EMAIL E in
     let smtp_password := BREVO_API_KEY E in
     if negb (forallb opt_truthy [sender_email; smtp_password]) then
       print (LogMockEmail email name api_key) ;;
       ret true
     else
       let message :=
         {| mail_from := opt_string sender_email;
            mail_to := email;
            mail_subject := "Your ZapForm API Key";
            mail_body := api_key_email_body name api_key;
            smtp_hostname := smtp_server;
            smtp_port := smtp_port;
            smtp_username := opt_string sender_email;
            smtp_password := opt_string smtp_password |} in
       smtp_send E message ;;
       print (LogEmailSent email) ;;
       ret true)
    (fun error =>
       print (LogEmailFailed error email api_key) ;;
       ret false).

(** ** [send_whatsapp_message] *)

(** [{"messages": [{"id": f"wamid.mock_{int(datetime.now().timestamp())}"}]}]. *)
Definition mock_result (E : env) : M json :=
  t <- timestamp E ;;
  ret (JObj [("messages", JArr [JObj [("id", JStr ("wamid.mock_" ++ PyStr.of_int t))]])]).

Definition whatsapp_request
  (whatsapp_token phone_number_id recipient_number message : string) : http_request :=
  {| url := "https://graph.facebook.com/v17.0/" ++ phone_number_id ++ "/messages";
     headers := [ ("Authorization", "Bearer " ++ whatsapp_token);
                  ("Content-Type", "application/json") ];
     payload :=
       JObj [ ("messaging_product", JStr "whatsapp");
              ("to", JStr (clean_recipient recipient_number));
              ("type", JStr "text");
              ("text", JObj [("body", JStr message)]) ] |}.

(** [requests.post(url, headers=headers, json=payload)]. *)
Definition http_post (E : env) (request : http_request) : M http_response :=
  emit (HttpPost request) ;;
  match requests_post E request with
  | inl response => ret response
  | inr error => raise error
  end.

(** [response.json()]. *)
Definition response_json (response : http_response) : M json :=
  match json_body response with
  | Some j => ret j
  | None => raise (Error "JSONDecodeError")
  end.

Definition send_whatsapp_message
  (E : env) (whatsapp_token phone_number_id recipient_number : string)
  (form_data : dict value) : M json :=
  print (LogSending recipient_number) ;;
  let message := format_message form_data in
  try_except
    (response <- http_post E
       (whatsapp_request whatsapp_token phone_number_id recipient_number message) ;;
     if (status_code response =? 200)%Z then
       result <- response_json response ;;
       print (LogWhatsAppSent result) ;;
       ret result
     else
       print (LogWhatsAppApiError (status_code response) (text response)) ;;
       mock_result E)
    (fun error =>
       print (LogWhatsAppFailed error) ;;
       mock_result E).

(** ** [register_user] *)

Definition json_of_id (i : option Z) : json :=
  match i with
  | Some n => JNum n
  | None => JNull
  end.

Definition registration_body (db_user : User) : json :=
  JObj [ ("success", JBool true);
         ("message", JStr "Registration successful! Check your email for your API key.");
         ("user", JObj [ ("id", json_of_id (id db_user));
                         ("name", JStr (name db_user));
                         ("email", JStr (email db_user)) ]) ].

(** [User(name=..., email=..., api_key=..., ...)], lines 224-231. *)
Definition new_user (user_data : Registration.UserRegistration) (key : string) : User :=
  {| id := None;
     name := Registration.name user_data;
     email := Registration.email user_data;
     api_key := key;
     whatsapp_token := Registration.whatsapp_token user_data;
     phone_number_id := Registration.phone_number_id user_data;
     recipient_number := Registration.recipient_number user_data;
     created_at := None;
     is_active := None |}.

Definition register_user (E : env) (user_data : Registration.UserRegistration) : M json :=
  try_except
    (existing_user <- query_first (ByEmail (Registration.email user_data))
                                  (has_email (Registration.email user_data)) ;;
     match existing_user with
     | Some _ => raise (HTTPException 400 "User with this email already exists")
     | None =>
         let key := generate_api_key E in
         let db_user := new_user user_data key in
         db_add db_user ;;
         db_commit E ;;
         db_user <- db_refresh db_user ;;
         send_api_key_email E (Registration.email user_data)
                            (Registration.name user_data) key ;;
         ret (registration_body db_user)
     end)
    (fun e =>
       match e with
       | HTTPException _ _ => raise e
       | Error _ =>
           print (LogRegistrationError e) ;;
           db_rollback ;;
           raise (HTTPException 500 "Internal server error")
       end).

(** ** [submit_form_api] *)

(** Loading the attribute [get]: only a [dict] has it. *)
Definition getattr_get (obj : json) : M (dict json) :=
  match obj with
  | JObj members => ret members
  | _ => raise (Error "AttributeError")
  end.

(** [d.get(key, default)]. *)
Definition get_default (d : dict json) (key : string) (default : json) : json :=
  match dict_find d key with
  | Some v => v
  | None => default
  end.

(** [obj[0]]. *)
Definition getitem0 (obj : json) : M json :=
  match obj with
  | JArr (first :: _) => ret first
  | JArr [] => raise (Error "IndexError")
  | JStr (String c _) => ret (JStr (String c EmptyString))
  | JStr EmptyString => raise (Error "IndexError")
  | JObj _ => raise (Error "KeyError")
  | JNull | JBool _ | JNum _ => raise (Error "TypeError")
  end.

Definition submission_body (whatsapp_message_id : json) : json :=
  JObj [ ("success", JBool true);
         ("message", JStr "Form submitted successfully");
         ("whatsapp_message_id", whatsapp_message_id) ].

Definition submit_form_api (E : env) (form_data : dict value) : M json :=
  try_except
    (let api_key := dict_get form_data "api_key" in
     if negb (truthy api_key) then
       raise (HTTPException 400 "API key is required")
     else
       user <- query_first (ByActiveApiKey (py_str api_key))
                           (has_active_api_key (py_str api_key)) ;;
       match user with
       | None => raise (HTTPException 401 "Invalid API key")
       | Some user =>
           let form_fields :=
             List.filter (fun item => negb (fst item =? "api_key")) form_data in
           whatsapp_result <- send_whatsapp_message E
             (whatsapp_token user) (phone_number_id user) (recipient_number user)
             form_fields ;;
           result_get <- getattr_get whatsapp_result ;;
           first <- getitem0 (get_default result_get "messages" (JArr [JObj []])) ;;
           first_get <- getattr_get first ;;
           t <- timestamp E ;;
           ret (submission_body
                  (get_default first_get "id" (JStr ("mock_" ++ PyStr.of_int t))))
       end)
    (fun e =>
       match e with
       | HTTPException _ _ => raise e
       | Error _ =>
           print (LogSubmissionError e) ;;
           raise (HTTPException 500 "Failed to submit form")
       end).

(** ** What the client receives *)

(** The status and body of the HTTP response for the outcome of a handler:
    a returned [dict] is sent with status 200, an [HTTPException] with its
    status code and its detail. *)
Definition http_response_of (o : outcome json) : Z * json :=
  match o with
  | Return body => (200%Z, body)
  | Raise (HTTPException status detail) => (status, JObj [("detail", JStr detail)])
  | Raise (Error _) => (500%Z, JStr "Internal Server Error")
  end.

Definition is_dispatch (ev : event) : bool :=
  match ev with
  | HttpPost _ => true
  | Printed (LogSending _) => true
  | _ => false
  end.

(** ** More of [str]: [strip], [startswith], [replace] with a count *)

Module PyText.

(** [str.isspace] on one character, which is also the class [\s] of [re]. *)
Definition isspace (c : ascii) : bool :=
  let n := PyStr.code c in
  ((9 <=? n)%nat && (n <=? 13)%nat) || ((28 <=? n)%nat && (n <=? 32)%nat).

Fixpoint lstrip (s : string) : string :=
  match s with
  | EmptyString => EmptyString
  | String c rest => if isspace c then lstrip rest else s
  end.

Fixpoint rstrip (s : string) : string :=
  match s with
  | EmptyString => EmptyString
  | String c rest =>
      match rstrip rest with
      | EmptyString => if isspace c then EmptyString else String c EmptyString
      | kept => String c kept
      end
  end.

(** [s.strip()]. *)
Definition strip (s : string) : string := rstrip (lstrip s).

Fixpoint drop (n : nat) (s : string) : string :=
  match n, s with
  | S k, String _ rest => drop k rest
  | _, _ => s
  end.

(** [s.startswith(p)]. *)
Definition startswith (p s : string) : bool := String.prefix p s.

(** [s.replace(old, new, 1)]: the first occurrence, from the left. *)
Fixpoint replace_first (old new s : string) {struct s} : string :=
  if String.prefix old s then new ++ drop (String.length old) s
  else
    match s with
    | EmptyString => EmptyString
    | String c rest => String c (replace_first old new rest)
    end.

End PyText.

(** ** [re.match] *)

Module Re.

Inductive regex : Type :=
| Void
| Eps
| Class (p : ascii -> bool)
| Seq (r1 r2 : regex)
| Alt (r1 r2 : regex)
| Star (r : regex).

(** [r+]. *)
Definition Plus (r : regex) : regex := Seq r (Star r).

Fixpoint nullable (r : regex) : bool :=
  match r with
  | Void => false
  | Eps => true
  | Class _ => false
  | Seq r1 r2 => nullable r1 && nullable r2
  | Alt r1 r2 => nullable r1 || nullable r2
  | Star _ => true
  end.

(** What is left of [r] to match after the character [c]. *)
Fixpoint derive (c : ascii) (r : regex) : regex :=
  match r with
  | Void => Void
  | Eps => Void
  | Class p => if p c then Eps else Void
  | Seq r1 r2 =>
      if nullable r1
      then Alt (Seq (derive c r1) r2) (derive c r2)
      else Seq (derive c r1) r2
  | Alt r1 r2 => Alt (derive c r1) (derive c r2)
  | Star r1 => Seq (derive c r1) (Star r1)
  end.

(** Whether [r] matches the whole of [s]. *)
Fixpoint fullmatch (r : regex) (s : string) : bool :=
  match s with
  | EmptyString => nullable r
  | String c rest => fullmatch (derive c r) rest
  end.

End Re.

(** ** The validators of [UserRegistration] (lines 50-85) *)

Module Validators.

(** What a validator does with a value: it returns one, or raises
    [ValueError] with a message. *)
Inductive checked (A : Type) : Type :=
| Accepted (v : A)
| ValueError (message : string).
Arguments Accepted {A} v.
Arguments ValueError {A} message.

(** The class [[^\s@]]. *)
Definition email_char (c : ascii) : bool :=
  negb (PyText.isspace c || Ascii.eqb c "@").

(** [^[^\s@]+@[^\s@]+\.[^\s@]+$] under [re.match]: the match starts at
    the first character, and [$] holds at the end of the string and before
    a newline that ends it. *)
Definition email_pattern : Re.regex :=
  Re.Seq (Re.Plus (Re.Class email_char))
    (Re.Seq (Re.Class (Ascii.eqb "@"))
       (Re.Seq (Re.Plus (Re.Class email_char))
          (Re.Seq (Re.Class (Ascii.eqb "."))
             (Re.Seq (Re.Plus (Re.Class email_char))
                (Re.Alt Re.Eps (Re.Class (Ascii.eqb "010"%char))))))).


Definition email_must_be_valid (v : string) : checked string :=
  if negb (Re.fullmatch email_pattern v) then ValueError "Invalid email format"
  else Accepted (PyText.strip v).







End Validators.

(** ** The database target ([src/database.py], lines 8-17) *)

Module Config.

(** [DATABASE_URL] after lines 9-10. *)
Definition normalize (DATABASE_URL : option string) : option string :=
  match DATABASE_URL with
  | Some u =>
      if negb (u =? "") && PyText.startswith "postgres://" u
      then Some (PyText.replace_first "postgres://" "postgresql://" u)
      else Some u
  | None => None
  end.

(** The argument of [create_engine], lines 13-17. *)
Definition engine_url (DATABASE_URL : option string) : string :=
  match normalize DATABASE_URL with
  | Some u => if negb (u =? "") then u else "sqlite:///./zapform.db"
  | None => "sqlite:///./zapform.db"
  end.

End Config.

(** ** [submit_form_html] *)

Inductive response : Type :=
| HTMLResponse (content : string) (status_code : Z)
| RedirectResponse (url : string) (status_code : Z).

Definition dq : string := String "034"%char EmptyString.

(** The content of the response of lines 321-331. *)
Definition invalid_api_key_page : string :=
  PyStr.nl ++
  "                <html>" ++ PyStr.nl ++
  "                    <body style=" ++ dq ++ "font-family: Arial, sans-serif; text-align: center; padding: 50px; background: linear-gradient(135deg, #f3f4f6, #e5e7eb);" ++ dq ++ ">" ++ PyStr.nl ++
  "                        <div style=" ++ dq ++ "max-width: 600px; margin: 0 auto; background: white; padding: 40px; border-radius: 16px; box-shadow: 0 10px 25px rgba(0,0,0,0.1);" ++ dq ++ ">" ++ PyStr.nl ++
  "                            <h1 style=" ++ dq ++ "color: #dc2626; margin-bottom: 20px;" ++ dq ++ ">❌ Invalid API Key</h1>" ++ PyStr.nl ++
  "                            <p style=" ++ dq ++ "color: #374151; margin-bottom: 30px;" ++ dq ++ ">The API key provided is not valid. Please check your configuration.</p>" ++ PyStr.nl ++
  "                            <button onclick=" ++ dq ++ "history.back()" ++ dq ++ " style=" ++ dq ++ "background: #16a34a; color: white; padding: 12px 24px; border: none; border-radius: 8px; cursor: pointer; font-size: 16px;" ++ dq ++ ">Go Back</button>" ++ PyStr.nl ++
  "                        </div>" ++ PyStr.nl ++
  "                    </body>" ++ PyStr.nl ++
  "                </html>" ++ PyStr.nl ++
  "            ".

(** The content of the response of lines 356-366. *)
Definition submission_failed_page : string :=
  PyStr.nl ++
  "            <html>" ++ PyStr.nl ++
  "                <body style=" ++ dq ++ "font-family: Arial, sans-serif; text-align: center; padding: 50px; background: linear-gradient(135deg, #f3f4f6, #e5e7eb);" ++ dq ++ ">" ++ PyStr.nl ++
  "                    <div style=" ++ dq ++ "max-width: 600px; margin: 0 auto; background: white; padding: 40px; border-radius: 16px; box-shadow: 0 10px 25px rgba(0,0,0,0.1);" ++ dq ++ ">" ++ PyStr.nl ++
  "                        <h1 style=" ++ dq ++ "color: #dc2626; margin-bottom: 20px;" ++ dq ++ ">⚠️ Submission Failed</h1>" ++ PyStr.nl ++
  "                        <p style=" ++ dq ++ "color: #374151; margin-bottom: 30px;" ++ dq ++ ">There was an error processing your form submission. Please try again.</p>" ++ PyStr.nl ++
  "                        <button onclick=" ++ dq ++ "history.back()" ++ dq ++ " style=" ++ dq ++ "background: #16a34a; color: white; padding: 12px 24px; border: none; border-radius: 8px; cursor: pointer; font-size: 16px;" ++ dq ++ ">Go Back</button>" ++ PyStr.nl ++
  "                    </div>" ++ PyStr.nl ++
  "                </body>" ++ PyStr.nl ++
  "            </html>" ++ PyStr.nl ++
  "        ".

(** [d[key] = v]: the value of a key that is there is replaced, a new key
    is added at the end. *)
Fixpoint dict_set {V : Type} (d : dict V) (key : string) (v : V) : dict V :=
  match d with
  | [] => [(key, v)]
  | (k, x) :: rest =>
      if k =? key then (k, v) :: rest else (k, x) :: dict_set rest key v
  end.

(** [if field: form_data[key] = field]. *)
Definition set_if_given (key : string) (field : option string) (form_data : dict value)
  : dict value :=
  match field with
  | Some s => if negb (s =? "") then dict_set form_data key (VStr s) else form_data
  | None => form_data
  end.

(** Lines 334-341. *)
Definition collect_fields (name email phone message budget company subject : option string)
  : dict value :=
  let form_data := [] in
  let form_data := set_if_given "name" name form_data in
  let form_data := set_if_given "email" email form_data in
  let form_data := set_if_given "phone" phone form_data in
  let form_data := set_if_given "message" message form_data in
  let form_data := set_if_given "budget" budget form_data in
  let form_data := set_if_given "company" company form_data in
  let form_data := set_if_given "subject" subject form_data in
  form_data.

Definition submit_form_html
  (E : env) (api_key : string)
  (name email phone message budget company subject : option string) : M response :=
  try_except
    (user <- query_first (ByActiveApiKey api_key) (has_active_api_key api_key) ;;
     match user with
     | None => ret (HTMLResponse invalid_api_key_page 401)
     | Some user =>
         let form_data :=
           collect_fields name email phone message budget company subject in
         send_whatsapp_message E
           (whatsapp_token user) (phone_number_id user) (recipient_number user)
           form_data ;;
         ret (RedirectResponse "/success.html" 302)
     end)
    (fun e =>
       print (LogSubmissionError e) ;;
       ret (HTMLResponse submission_failed_page 500)).

(** ** Notions used by the statements *)

(** The fields that get a line, and the line of a field. *)
Definition emitted (item : string * value) : bool :=
  negb (fst item =? "api_key") && truthy (snd item).

Definition field_line (item : string * value) : string :=
  "*" ++ PyStr.title (PyStr.replace "_" " " (fst item)) ++ ":* " ++
  py_str (snd item) ++ PyStr.nl.

Definition join (parts : list string) : string :=
  fold_right String.append EmptyString parts.

(** [stripped s t]: [t] is [s] with the characters that are not digits
    taken out, and nothing else changed. *)
Inductive stripped : string -> string -> Prop :=
| stripped_nil : stripped EmptyString EmptyString
| stripped_keep c s t :
    PyStr.isdigit c = true -> stripped s t -> stripped (String c s) (String c t)
| stripped_drop c s t :
    PyStr.isdigit c = false -> stripped s t -> stripped (String c s) t.

(** The account a submission authenticates as, if any. *)
Definition authenticate (w : world) (form_data : dict value) : option User :=
  if truthy (dict_get form_data "api_key")
  then find (has_active_api_key (py_str (dict_get form_data "api_key"))) (users w)
  else None.

(** The provider did not answer with status 200: another status, or
    [requests.post] raised. *)
Definition provider_failed (E : env) (request : http_request) : Prop :=
  match requests_post E request with
  | inl response => status_code response <> 200%Z
  | inr _ => True
  end.

(** The result of the dispatcher on the degraded path. *)
Definition mock_delivery (t : Z) : json :=
  JObj [("messages", JArr [JObj [("id", JStr ("wamid.mock_" ++ PyStr.of_int t))]])].

(** The identifier that [whatsapp_result.get("messages", [{}])[0].get("id",
    fallback)] reads, for the results on which each step is defined. *)
Definition delivery_id (result fallback : json) : option json :=
  match result with
  | JObj members =>
      match get_default members "messages" (JArr [JObj []]) with
      | JArr (JObj first :: _) => Some (get_default first "id" fallback)
      | _ => None
      end
  | _ => None
  end.

(** The state in which the dispatcher starts within [submit_form_api]. *)
Definition after_lookup (key : string) (w : world) : world :=
  snd (emit (DbQuery (ByActiveApiKey key)) w).

(** The request that a submission sends for an account. *)
Definition submission_request (user : User) (form_data : dict value) : http_request :=
  whatsapp_request (whatsapp_token user) (phone_number_id user) (recipient_number user)
    (format_message (List.filter (fun item => negb (fst item =? "api_key")) form_data)).

(** Every member name of a document, at any depth. *)
Fixpoint json_keys (j : json) : list string :=
  match j with
  | JObj members => flat_map (fun m => fst m :: json_keys (snd m)) members
  | JArr items => flat_map json_keys items
  | _ => []
  end.

(** The response of a successful registration, from what it shows. *)
Definition registration_response (i : Z) (name email : string) : json :=
  JObj [ ("success", JBool true);
         ("message", JStr "Registration successful! Check your email for your API key.");
         ("user", JObj [ ("id", JNum i); ("name", JStr name); ("email", JStr email) ]) ].

(** The environment with another notification collaborator: the SMTP relay
    and the four settings of the mail service. *)
Definition with_notification
  (E : env) (send : smtp_mail -> option exn)
  (key sender server port : option string) : env :=
  {| urandom16 := urandom16 E;
     now := now E;
     requests_post := requests_post E;
     aiosmtplib_send := send;
     BREVO_API_KEY := key;
     BREVO_SENDER_EMAIL := sender;
     BREVO_SMTP_SERVER := server;
     BREVO_SMTP_PORT := port |}.


(** ** Notions used by the further properties *)











(** Both unique columns hold distinct values. *)
Definition unique_columns (rows : list User) : Prop :=
  NoDup (List.map email rows) /\ NoDup (List.map api_key rows).

(** The fields of the form that were filled in, in the order given. *)
Definition given_fields (offered : list (string * option string)) : dict value :=
  flat_map
    (fun item =>
       match snd item with
       | Some s => if negb (s =? "") then [(fst item, VStr s)] else []
       | None => []
       end)
    offered.

(** The mail that carries an API key. *)
Definition api_key_mail (E : env) (email name key : string) : smtp_mail :=
  {| mail_from := opt_string (BREVO_SENDER_EMAIL E);
     mail_to := email;
     mail_subject := "Your ZapForm API Key";
     mail_body := api_key_email_body name key;
     smtp_hostname := BREVO_SMTP_SERVER E;
     smtp_port := BREVO_SMTP_PORT E;
     smtp_username := opt_string (BREVO_SENDER_EMAIL E);
     smtp_password := opt_string (BREVO_API_KEY E) |}.

Definition is_smtp_send (ev : event) : bool :=
  match ev with
  | SmtpSend _ => true
  | _ => false
  end.

(** ** Sample data *)

Module Sample.

Definition provider_503 (_ : http_request) : http_response + exn :=
  inl {| status_code := 503; text := "Service Unavailable"; json_body := None |}.

Definition provider_unreachable (_ : http_request) : http_response + exn :=
  inr (Error "ConnectionError").

(** A provider that answers 200 with a given document. *)
Definition provider_200 (j : json) (_ : http_request) : http_response + exn :=
  inl {| status_code := 200; text := "OK"; json_body := Some j |}.

Definition smtp_down (_ : smtp_mail) : option exn := Some (Error "SMTPConnectError").

Definition environment (provider : http_request -> http_response + exn) : env :=
  {| urandom16 := 0x0123456789abcdef0123456789abcdef;
     now := fun n => (1700000000 + Z.of_nat n)%Z;
     requests_post := provider;
     aiosmtplib_send := smtp_down;
     BREVO_API_KEY := Some "xkeysib";
     BREVO_SENDER_EMAIL := Some "noreply@zapform.example";
     BREVO_SMTP_SERVER := Some "smtp-relay.brevo.com";
     BREVO_SMTP_PORT := Some "587" |}.

Definition ana : Registration.UserRegistration :=
  {| Registration.name := "Ana";
     Registration.email := "ana@x.com";
     Registration.whatsapp_token := "t1";
     Registration.phone_number_id := "p1";
     Registration.recipient_number := "+1 555 0100";
     Registration.terms := true |}.

Definition empty_world : world :=
  {| users := []; session := []; next_id := 1; ticks := 0; trace := [] |}.

Definition ana_row : User :=
  {| id := Some 1%Z;
     name := "Ana";
     email := "ana@x.com";
     api_key := "zf_0123456789ab4def81234567";
     whatsapp_token := "t1";
     phone_number_id := "p1";
     recipient_number := "+1 555 0100";
     created_at := Some 1700000000%Z;
     is_active := Some true |}.

(** Ana's account with the active flag cleared. *)
Definition ana_inactive : User :=
  {| id := Some 1%Z;
     name := "Ana";
     email := "ana@x.com";
     api_key := "zf_0123456789ab4def81234567";
     whatsapp_token := "t1";
     phone_number_id := "p1";
     recipient_number := "+1 555 0100";
     created_at := Some 1700000000%Z;
     is_active := Some false |}.

Definition world_of (rows : list User) : world :=
  {| users := rows; session := []; next_id := 2; ticks := 1; trace := [] |}.

Definition hello : dict value :=
  [ ("api_key", VStr "zf_0123456789ab4def81234567");
    ("message", VStr "Hello");
    ("budget", VStr "") ].

End Sample.

(** * Properties *)

(** ** Strings *)

Section StringFacts.

Lemma append_assoc (a b c : string) : (a ++ b) ++ c = a ++ b ++ c.
Proof.
  induction a as [|x a IH]; simpl; [reflexivity | now rewrite IH].
Qed.

Lemma append_empty_r (a : string) : a ++ "" = a.
Proof.
  induction a as [|x a IH]; simpl; [reflexivity | now rewrite IH].
Qed.


End StringFacts.

(** ** The message formatter *)

Lemma format_step_spec (message : string) (item : string * value) :
  format_step message item =
  if emitted item then message ++ field_line item else message.
Proof.
  destruct item as [key v]. unfold format_step, emitted, field_line. simpl.
  destruct (negb (key =? "api_key") && truthy v); reflexivity.
Qed.

Lemma fold_left_format_step (form_data : dict value) :
  forall message,
    fold_left format_step form_data message =
    message ++ join (List.map field_line (List.filter emitted form_data)).
Proof.
  induction form_data as [|item rest IH]; intros message.
  - simpl. now rewrite append_empty_r.
  - cbn [fold_left List.filter]. rewrite IH, format_step_spec.
    destruct (emitted item).
    + cbn [List.map join fold_right]. now rewrite append_assoc.
    + reflexivity.
Qed.

(** Scenario 2 of the specification, on the formatter: the body for
    [message = "Hello"], [budget = ""]. *)
Example format_message_hello :
  PyStr.split_lines
    (format_message [("message", VStr "Hello"); ("budget", VStr "")]) =
  [ "🔔 *New Contact Form Submission*"; ""; "*Message:* Hello"; "";
    "_Sent via ZapForm_" ].
Proof. reflexivity. Qed.

(** The label of a field: underscores become spaces, words are title-cased. *)
Example formatted_key_examples :
  PyStr.title (PyStr.replace "_" " " "first_name") = "First Name" /\
  PyStr.title (PyStr.replace "_" " " "phoneNumber") = "Phonenumber" /\
  PyStr.title (PyStr.replace "_" " " "e-mail_2nd") = "E-Mail 2Nd".
Proof. repeat split. Qed.



(** ** The recipient number *)


Lemma stripped_unique (s t : string) : stripped s t -> t = clean_recipient s.
Proof.
  unfold clean_recipient.
  induction 1 as [| c s t Hc _ IH | c s t Hc _ IH]; simpl.
  - reflexivity.
  - rewrite Hc. now f_equal.
  - now rewrite Hc.
Qed.


(** ** Running the handlers *)

Ltac run :=
  repeat
    (progress
       (unfold bind, ret, raise, try_except, print, emit, timestamp, mock_result;
        cbn [fst snd users session next_id ticks trace negb
             getattr_get getitem0])).

(** What the dispatcher does, by the answer of the provider. *)
Lemma send_whatsapp_message_cases
  (E : env) (whatsapp_token phone_number_id recipient_number : string)
  (form_data : dict value) (w : world) :
  let request :=
    whatsapp_request whatsapp_token phone_number_id recipient_number
                     (format_message form_data) in
  let sent := (trace w ++ [Printed (LogSending recipient_number); HttpPost request])%list in
  send_whatsapp_message E whatsapp_token phone_number_id recipient_number form_data w =
  match requests_post E request with
  | inl response =>
      if (status_code response =? 200)%Z then
        match json_body response with
        | Some result =>
            (Return result,
             {| users := users w; session := session w; next_id := next_id w;
                ticks := ticks w;
                trace := (sent ++ [Printed (LogWhatsAppSent result)])%list |})
        | None =>
            (Return (mock_delivery (now E (ticks w))),
             {| users := users w; session := session w; next_id := next_id w;
                ticks := S (ticks w);
                trace := (sent ++ [Printed (LogWhatsAppFailed (Error "JSONDecodeError"))])%list |})
        end
      else
        (Return (mock_delivery (now E (ticks w))),
         {| users := users w; session := session w; next_id := next_id w;
            ticks := S (ticks w);
            trace := (sent ++ [Printed (LogWhatsAppApiError (status_code response)
                                                         (text response))])%list |})
  | inr error =>
      (Return (mock_delivery (now E (ticks w))),
       {| users := users w; session := session w; next_id := next_id w;
          ticks := S (ticks w);
          trace := (sent ++ [Printed (LogWhatsAppFailed error)])%list |})
  end.
Proof.
  cbv zeta. unfold send_whatsapp_message, http_post, response_json. run.
  destruct (requests_post E _) as [response | error]; run.
  - destruct (status_code response =? 200)%Z; run.
    + destruct (json_body response) as [result |]; run;
        now rewrite <- !app_assoc.
    + now rewrite <- !app_assoc.
  - now rewrite <- !app_assoc.
Qed.

Lemma send_whatsapp_message_returns
  (E : env) (whatsapp_token phone_number_id recipient_number : string)
  (form_data : dict value) (w : world) :
  exists result w',
    send_whatsapp_message E whatsapp_token phone_number_id recipient_number form_data w =
    (Return result, w') /\
    users w' = users w /\ session w' = session w /\ next_id w' = next_id w.
Proof.
  rewrite send_whatsapp_message_cases. cbv zeta.
  destruct (requests_post E _) as [response | error].
  - destruct (status_code response =? 200)%Z.
    + destruct (json_body response) as [result |]; eauto 6.
    + eauto 6.
  - eauto 6.
Qed.

Lemma send_whatsapp_message_mock
  (E : env) (whatsapp_token phone_number_id recipient_number : string)
  (form_data : dict value) (w : world) :
  provider_failed E (whatsapp_request whatsapp_token phone_number_id recipient_number
                                      (format_message form_data)) ->
  exists w',
    send_whatsapp_message E whatsapp_token phone_number_id recipient_number form_data w =
    (Return (mock_delivery (now E (ticks w))), w') /\
    ticks w' = S (ticks w).
Proof.
  unfold provider_failed. intros Hfail.
  rewrite send_whatsapp_message_cases. cbv zeta.
  destruct (requests_post E _) as [response | error].
  - destruct (status_code response =? 200)%Z eqn:Hs.
    + apply Z.eqb_eq in Hs. contradiction.
    + eauto.
  - eauto.
Qed.

(** The submission handler, once the key has been found: the result of
    the dispatcher is read with [delivery_id]. *)
Lemma submit_form_api_acknowledged
  (E : env) (form_data : dict value) (w w1 : world) (user : User) (result i : json) :
  authenticate w form_data = Some user ->
  send_whatsapp_message E (whatsapp_token user) (phone_number_id user)
    (recipient_number user)
    (List.filter (fun item => negb (fst item =? "api_key")) form_data)
    (after_lookup (py_str (dict_get form_data "api_key")) w) = (Return result, w1) ->
  delivery_id result (JStr ("mock_" ++ PyStr.of_int (now E (ticks w1)))) = Some i ->
  exists w2, submit_form_api E form_data w = (Return (submission_body i), w2).
Proof.
  unfold authenticate, after_lookup. intros Hauth Hsend Hid.
  destruct (truthy (dict_get form_data "api_key")) eqn:Hkey; [| discriminate].
  unfold submit_form_api, query_first. run. rewrite Hkey. run.
  rewrite Hauth. unfold emit in Hsend. cbn [snd] in Hsend. rewrite Hsend.
  unfold delivery_id in Hid.
  destruct result as [| | | | | members]; try discriminate.
  run.
  destruct (get_default members "messages" (JArr [JObj []]))
    as [| | | | [| first rest] |]; try discriminate.
  destruct first as [| | | | | first]; try discriminate.
  run. injection Hid as <-. eauto.
Qed.

Lemma submit_form_api_not_acknowledged
  (E : env) (form_data : dict value) (w w1 : world) (user : User) (result : json) :
  authenticate w form_data = Some user ->
  send_whatsapp_message E (whatsapp_token user) (phone_number_id user)
    (recipient_number user)
    (List.filter (fun item => negb (fst item =? "api_key")) form_data)
    (after_lookup (py_str (dict_get form_data "api_key")) w) = (Return result, w1) ->
  delivery_id result (JStr ("mock_" ++ PyStr.of_int (now E (ticks w1)))) = None ->
  fst (submit_form_api E form_data w) = Raise (HTTPException 500 "Failed to submit form").
Proof.
  unfold authenticate, after_lookup. intros Hauth Hsend Hid.
  destruct (truthy (dict_get form_data "api_key")) eqn:Hkey; [| discriminate].
  unfold submit_form_api, query_first. run. rewrite Hkey. run.
  rewrite Hauth. unfold emit in Hsend. cbn [snd] in Hsend. rewrite Hsend.
  unfold delivery_id in Hid.
  destruct result as [| | | | | members]; try reflexivity.
  run.
  destruct (get_default members "messages" (JArr [JObj []]))
    as [| | | [| c s] | [| first rest] |]; try reflexivity.
  destruct first as [| | | | | first]; try reflexivity.
  discriminate.
Qed.

(** The effects of a dispatch: the line announcing it, one request, and
    one more printed line. *)
Lemma send_whatsapp_message_trace
  (E : env) (whatsapp_token phone_number_id recipient_number : string)
  (form_data : dict value) (w : world) :
  exists line,
    trace (snd (send_whatsapp_message E whatsapp_token phone_number_id
                                      recipient_number form_data w)) =
    (trace w ++
     [ Printed (LogSending recipient_number);
       HttpPost (whatsapp_request whatsapp_token phone_number_id recipient_number
                                  (format_message form_data));
       Printed line ])%list.
Proof.
  rewrite send_whatsapp_message_cases. cbv zeta.
  destruct (requests_post E _) as [response | error].
  - destruct (status_code response =? 200)%Z.
    + destruct (json_body response) as [result |]; cbn [snd trace];
        eexists; rewrite <- app_assoc; reflexivity.
    + cbn [snd trace]. eexists. rewrite <- app_assoc. reflexivity.
  - cbn [snd trace]. eexists. rewrite <- app_assoc. reflexivity.
Qed.



(** ** C1: the dispatcher degrades to a mock identifier *)

(** C1. When the provider answers with a status other than 200, or
    [requests.post] raises, [send_whatsapp_message] raises nothing: it
    returns [{"messages": [{"id": "wamid.mock_<seconds>"}]}], where
    [<seconds>] is the reading of the clock; an authenticated submission
    then returns the success body with that identifier. *)
Theorem send_whatsapp_message_degrades (E : env) (w : world) :
  (forall whatsapp_token phone_number_id recipient_number form_data,
     provider_failed E
       (whatsapp_request whatsapp_token phone_number_id recipient_number
                         (format_message form_data)) ->
     exists w',
       send_whatsapp_message E whatsapp_token phone_number_id recipient_number
                             form_data w =
       (Return (JObj [("messages",
                       JArr [JObj [("id",
                                    JStr ("wamid.mock_" ++
                                          PyStr.of_int (now E (ticks w))))]])]),
        w')) /\
  (forall form_data user,
     authenticate w form_data = Some user ->
     provider_failed E (submission_request user form_data) ->
     exists w',
       submit_form_api E form_data w =
       (Return (submission_body
                  (JStr ("wamid.mock_" ++ PyStr.of_int (now E (ticks w))))),
        w') /\
       fst (http_response_of (fst (submit_form_api E form_data w))) = 200%Z).
Proof.
  split.
  - intros tok pid rcpt form Hfail.
    destruct (send_whatsapp_message_mock E tok pid rcpt form w Hfail) as (w' & H & _).
    exists w'. exact H.
  - intros form_data user Hauth Hfail.
    destruct (send_whatsapp_message_mock E (whatsapp_token user)
                (phone_number_id user) (recipient_number user)
                (List.filter (fun item => negb (fst item =? "api_key")) form_data)
                (after_lookup (py_str (dict_get form_data "api_key")) w) Hfail)
      as (w1 & Hsend & _).
    destruct (submit_form_api_acknowledged E form_data w w1 user _ _ Hauth Hsend
                eq_refl) as [w2 Hsubmit].
    exists w2. split.
    + exact Hsubmit.
    + now rewrite Hsubmit.
Qed.

Lemma send_whatsapp_message_degrades_witness :
  let E := Sample.environment Sample.provider_503 in
  let w := Sample.world_of [Sample.ana_row] in
  provider_failed E (whatsapp_request "t1" "p1" "+1 555 0100"
                       (format_message [("message", VStr "Hello")])) /\
  (exists w',
     send_whatsapp_message E "t1" "p1" "+1 555 0100" [("message", VStr "Hello")] w =
     (Return (JObj [("messages", JArr [JObj [("id", JStr "wamid.mock_1700000001")]])]),
      w')) /\
  authenticate w Sample.hello = Some Sample.ana_row /\
  provider_failed E (submission_request Sample.ana_row Sample.hello) /\
  (exists w',
     submit_form_api E Sample.hello w =
     (Return (submission_body (JStr "wamid.mock_1700000001")), w') /\
     fst (http_response_of (fst (submit_form_api E Sample.hello w))) = 200%Z).
Proof.
  cbv zeta.
  assert (Hfail : forall request,
             provider_failed (Sample.environment Sample.provider_503) request)
    by (intros request; unfold provider_failed; simpl; discriminate).
  split; [apply Hfail |]. split.
  - exact (proj1 (send_whatsapp_message_degrades
                    (Sample.environment Sample.provider_503)
                    (Sample.world_of [Sample.ana_row]))
                 "t1" "p1" "+1 555 0100" [("message", VStr "Hello")] (Hfail _)).
  - split; [reflexivity |]. split; [apply Hfail |].
    exact (proj2 (send_whatsapp_message_degrades
                    (Sample.environment Sample.provider_503)
                    (Sample.world_of [Sample.ana_row]))
                 Sample.hello Sample.ana_row eq_refl (Hfail _)).
Defined.

(** A transport failure ends in the same way as a status other than 200. *)
Example submit_form_api_transport_failure :
  fst (submit_form_api (Sample.environment Sample.provider_unreachable)
         Sample.hello (Sample.world_of [Sample.ana_row])) =
  Return (submission_body (JStr "wamid.mock_1700000001")).
Proof. reflexivity. Qed.

(** ** C9: the recipient number of a dispatch *)



(** ** C7: the acknowledgement of a submission *)




(** The acknowledgement for a provider that answers 200 with an
    identifier. *)
Example submit_form_api_provider_id :
  fst (submit_form_api
         (Sample.environment
            (Sample.provider_200
               (JObj [("messages", JArr [JObj [("id", JStr "wamid.HBgL")]])])))
         Sample.hello (Sample.world_of [Sample.ana_row])) =
  Return (submission_body (JStr "wamid.HBgL")).
Proof. reflexivity. Qed.

(** ** C3, C10: submissions that do not authenticate *)

Lemma find_absent {A : Type} (p : A -> bool) (l : list A) :
  (forall x, In x l -> p x = false) -> find p l = None.
Proof.
  induction l as [|a l IH]; intros H; simpl; [reflexivity |].
  rewrite (H a (or_introl eq_refl)). apply IH. intros x Hx. apply H. now right.
Qed.

Lemma no_active_account (k : string) (rows : list User) :
  (forall u, In u rows -> api_key u = k -> is_active u <> Some true) ->
  find (has_active_api_key k) rows = None.
Proof.
  intros H. apply find_absent. intros u Hu. unfold has_active_api_key.
  destruct (api_key u =? k) eqn:Hk; [| reflexivity].
  apply String.eqb_eq in Hk. specialize (H u Hu Hk).
  destruct (is_active u) as [[|] |]; simpl; congruence.
Qed.

Lemma submit_form_api_falsy_key (E : env) (form_data : dict value) (w : world) :
  truthy (dict_get form_data "api_key") = false ->
  submit_form_api E form_data w = (Raise (HTTPException 400 "API key is required"), w).
Proof.
  intros Hkey. unfold submit_form_api. run. rewrite Hkey. reflexivity.
Qed.

(** C3. Without an [api_key] field the handler raises [HTTPException] 400;
    with a key for which no row has that [api_key] and [is_active = True]
    (no such key, or an account that is not active) it raises
    [HTTPException] 401 and its only effect is the lookup: the dispatcher
    is not called. *)
Theorem submit_form_api_rejects (E : env) (form_data : dict value) (w : world) :
  (dict_find form_data "api_key" = None ->
   submit_form_api E form_data w =
     (Raise (HTTPException 400 "API key is required"), w) /\
   fst (http_response_of (fst (submit_form_api E form_data w))) = 400%Z) /\
  (forall k,
     dict_find form_data "api_key" = Some (VStr k) ->
     k <> "" ->
     (forall u, In u (users w) -> api_key u = k -> is_active u <> Some true) ->
     submit_form_api E form_data w =
       (Raise (HTTPException 401 "Invalid API key"), after_lookup k w) /\
     fst (http_response_of (fst (submit_form_api E form_data w))) = 401%Z /\
     trace (snd (submit_form_api E form_data w)) =
       (trace w ++ [DbQuery (ByActiveApiKey k)])%list /\
     existsb is_dispatch [DbQuery (ByActiveApiKey k)] = false).
Proof.
  split.
  - intros Hmissing.
    assert (Hkey : truthy (dict_get form_data "api_key") = false)
      by (unfold dict_get; now rewrite Hmissing).
    rewrite (submit_form_api_falsy_key E form_data w Hkey). now split.
  - intros k Hfound Hk Hnone.
    assert (Hget : dict_get form_data "api_key" = VStr k)
      by (unfold dict_get; now rewrite Hfound).
    assert (Hsubmit : submit_form_api E form_data w =
                      (Raise (HTTPException 401 "Invalid API key"), after_lookup k w)).
    { unfold submit_form_api, query_first, after_lookup. run.
      rewrite Hget. cbn [truthy py_str].
      apply String.eqb_neq in Hk. rewrite Hk. run.
      now rewrite (no_active_account k (users w) Hnone). }
    rewrite Hsubmit. repeat split.
Qed.

Lemma submit_form_api_rejects_witness :
  let E := Sample.environment Sample.provider_503 in
  (dict_find [("message", VStr "Hello")] "api_key" = None /\
   submit_form_api E [("message", VStr "Hello")] (Sample.world_of [Sample.ana_row]) =
     (Raise (HTTPException 400 "API key is required"),
      Sample.world_of [Sample.ana_row])) /\
  (dict_find Sample.hello "api_key" = Some (VStr "zf_0123456789ab4def81234567") /\
   "zf_0123456789ab4def81234567" <> "" /\
   (forall u, In u (users (Sample.world_of [Sample.ana_inactive])) ->
              api_key u = "zf_0123456789ab4def81234567" ->
              is_active u <> Some true) /\
   fst (submit_form_api E Sample.hello (Sample.world_of [Sample.ana_inactive])) =
     Raise (HTTPException 401 "Invalid API key") /\
   trace (snd (submit_form_api E Sample.hello (Sample.world_of [Sample.ana_inactive]))) =
     [DbQuery (ByActiveApiKey "zf_0123456789ab4def81234567")]).
Proof.
  cbv zeta.
  assert (Hinactive :
            forall u, In u (users (Sample.world_of [Sample.ana_inactive])) ->
                      api_key u = "zf_0123456789ab4def81234567" ->
                      is_active u <> Some true).
  { intros u [<- | []] _. discriminate. }
  split.
  - split; [reflexivity |].
    exact (proj1 (proj1 (submit_form_api_rejects
                           (Sample.environment Sample.provider_503)
                           [("message", VStr "Hello")]
                           (Sample.world_of [Sample.ana_row])) eq_refl)).
  - split; [reflexivity |]. split; [discriminate |]. split; [exact Hinactive |].
    pose proof (proj2 (submit_form_api_rejects
                         (Sample.environment Sample.provider_503)
                         Sample.hello (Sample.world_of [Sample.ana_inactive]))
                      "zf_0123456789ab4def81234567" eq_refl
                      ltac:(discriminate) Hinactive) as (Hsubmit & _ & Htrace & _).
    split.
    + now rewrite Hsubmit.
    + exact Htrace.
Defined.

(** C10. An [api_key] field holding the empty string is handled as a
    missing one: [HTTPException] 400 with the same detail, and the world is
    left as it was, so neither the lookup nor the dispatch took place. *)
Theorem submit_form_api_empty_key (E : env) (form_data : dict value) (w : world) :
  dict_find form_data "api_key" = Some (VStr "") ->
  submit_form_api E form_data w =
    (Raise (HTTPException 400 "API key is required"), w) /\
  fst (http_response_of (fst (submit_form_api E form_data w))) = 400%Z /\
  trace (snd (submit_form_api E form_data w)) = trace w /\
  (forall missing,
     dict_find missing "api_key" = None ->
     submit_form_api E missing w = submit_form_api E form_data w).
Proof.
  intros Hempty.
  assert (Hkey : truthy (dict_get form_data "api_key") = false)
    by (unfold dict_get; now rewrite Hempty).
  rewrite (submit_form_api_falsy_key E form_data w Hkey).
  repeat split. intros missing Hmissing.
  apply submit_form_api_falsy_key. unfold dict_get. now rewrite Hmissing.
Qed.

Lemma submit_form_api_empty_key_witness :
  let E := Sample.environment Sample.provider_503 in
  let form_data := [("api_key", VStr ""); ("message", VStr "Hello")] in
  let w := Sample.world_of [Sample.ana_row] in
  dict_find form_data "api_key" = Some (VStr "") /\
  submit_form_api E form_data w =
    (Raise (HTTPException 400 "API key is required"), w) /\
  trace (snd (submit_form_api E form_data w)) = trace w.
Proof.
  cbv zeta. split; [reflexivity |].
  pose proof (submit_form_api_empty_key
                (Sample.environment Sample.provider_503)
                [("api_key", VStr ""); ("message", VStr "Hello")]
                (Sample.world_of [Sample.ana_row]) eq_refl) as (H & _ & Ht & _).
  split; [exact H | exact Ht].
Defined.

(** ** Registration *)

(** The notification returns in every case, with a flag, and touches
    nothing but the trace. *)
Lemma send_api_key_email_returns
  (E : env) (email name key : string) (w : world) :
  exists sent events,
    send_api_key_email E email name key w =
    (Return sent,
     {| users := users w; session := session w; next_id := next_id w;
        ticks := ticks w; trace := (trace w ++ events)%list |}).
Proof.
  unfold send_api_key_email, smtp_send. run.
  destruct (negb (forallb opt_truthy [BREVO_SENDER_EMAIL E; BREVO_API_KEY E])).
  - run. eauto.
  - run. destruct (aiosmtplib_send E _) as [error |]; run;
      rewrite <- app_assoc; eauto.
Qed.

(** A relay that raises makes the notification return [False]. *)
Lemma send_api_key_email_failure
  (E : env) (email name key : string) (w : world) (error : exn) :
  opt_truthy (BREVO_SENDER_EMAIL E) = true ->
  opt_truthy (BREVO_API_KEY E) = true ->
  (forall mail, aiosmtplib_send E mail = Some error) ->
  exists mail,
    send_api_key_email E email name key w =
    (Return false,
     {| users := users w; session := session w; next_id := next_id w;
        ticks := ticks w;
        trace := (trace w ++ [SmtpSend mail;
                              Printed (LogEmailFailed error email key)])%list |}).
Proof.
  intros Hsender Hkey Hdown.
  unfold send_api_key_email, smtp_send. run.
  cbn [forallb]. rewrite Hsender, Hkey. cbn [andb negb]. run.
  rewrite Hdown. run. rewrite <- app_assoc. eexists. reflexivity.
Qed.

Lemma register_user_conflict
  (E : env) (user_data : Registration.UserRegistration) (w : world) (existing : User) :
  find (has_email (Registration.email user_data)) (users w) = Some existing ->
  register_user E user_data w =
  (Raise (HTTPException 400 "User with this email already exists"),
   {| users := users w; session := session w; next_id := next_id w;
      ticks := ticks w;
      trace := (trace w ++ [DbQuery (ByEmail (Registration.email user_data))])%list |}).
Proof.
  intros Hfound. unfold register_user, query_first. run. now rewrite Hfound.
Qed.

Lemma register_user_refused
  (E : env) (user_data : Registration.UserRegistration) (w : world) :
  find (has_email (Registration.email user_data)) (users w) = None ->
  flush (now E) (session w ++ [new_user user_data (generate_api_key E)])%list
        (users w) (next_id w) (ticks w) = None ->
  exists w',
    register_user E user_data w =
    (Raise (HTTPException 500 "Internal server error"), w') /\
    users w' = users w.
Proof.
  intros Hfresh Hflush.
  unfold register_user, query_first, db_add, db_commit, db_rollback, set_store.
  run. rewrite Hfresh. run. rewrite Hflush. run. eauto.
Qed.

Lemma register_user_persisted
  (E : env) (user_data : Registration.UserRegistration) (w : world)
  (rows : list User) (next : Z) (t : nat) :
  find (has_email (Registration.email user_data)) (users w) = None ->
  flush (now E) (session w ++ [new_user user_data (generate_api_key E)])%list
        (users w) (next_id w) (ticks w) = Some (rows, next, t) ->
  match find (fun r => api_key r =? generate_api_key E) rows with
  | Some row =>
      register_user E user_data w =
      (Return (registration_body row),
       snd (send_api_key_email E (Registration.email user_data)
              (Registration.name user_data) (generate_api_key E)
              {| users := rows; session := []; next_id := next; ticks := t;
                 trace := (trace w ++
                           [ DbQuery (ByEmail (Registration.email user_data));
                             DbCommit;
                             DbQuery (Refresh (generate_api_key E)) ])%list |}))
  | None =>
      exists w',
        register_user E user_data w =
        (Raise (HTTPException 500 "Internal server error"), w') /\
        users w' = rows
  end.
Proof.
  intros Hfresh Hflush.
  unfold register_user, query_first, db_add, db_commit, db_refresh, db_rollback,
    set_store.
  run. rewrite Hfresh. run. rewrite Hflush. run.
  cbn [api_key new_user].
  destruct (find (fun r => api_key r =? generate_api_key E) rows) as [row |].
  - run. rewrite <- !app_assoc. cbn [app].
    match goal with
    | |- context [send_api_key_email E ?e ?n ?k ?w0] =>
        destruct (send_api_key_email_returns E e n k w0) as (sent & events & Hmail)
    end.
    rewrite Hmail. reflexivity.
  - run. eauto.
Qed.

(** With an empty session the flush inserts the one new row. *)
Lemma flush_one (clock : nat -> Z) (u : User) (rows : list User) (next : Z) (t : nat) :
  flush clock [u] rows next t =
  if violates_unique rows u then None
  else Some ((rows ++ [inserted u next (clock t)])%list, (next + 1)%Z, S t).
Proof. reflexivity. Qed.

Lemma find_inserted (u : User) (rows : list User) (next clock : Z) :
  violates_unique rows u = false ->
  find (fun r => api_key r =? api_key u) (rows ++ [inserted u next clock])%list =
  Some (inserted u next clock).
Proof.
  unfold violates_unique.
  induction rows as [|a rows IH]; intros Hfree.
  - simpl. now rewrite String.eqb_refl.
  - cbn [existsb] in Hfree. apply orb_false_iff in Hfree as [Ha Hrows].
    apply orb_false_iff in Ha as [_ Ha].
    cbn [app find]. rewrite Ha. now apply IH.
Qed.

Lemma count_email_absent (e : string) (rows : list User) :
  find (has_email e) rows = None -> count_email e rows = 0%nat.
Proof.
  unfold count_email.
  induction rows as [|a rows IH]; simpl; [reflexivity |].
  destruct (has_email e a); [discriminate | exact IH].
Qed.

Lemma count_email_app (e : string) (rows more : list User) :
  count_email e (rows ++ more)%list = (count_email e rows + count_email e more)%nat.
Proof.
  unfold count_email. now rewrite filter_app, length_app.
Qed.

Lemma find_has_email (e : string) (rows : list User) (existing : User) :
  In existing rows -> email existing = e ->
  exists first, find (has_email e) rows = Some first.
Proof.
  intros Hin He.
  destruct (find (has_email e) rows) as [first |] eqn:Hfind; [eauto |].
  pose proof (find_none _ _ Hfind existing Hin) as Hno.
  unfold has_email in Hno. rewrite He, String.eqb_refl in Hno. discriminate.
Qed.

(** What a registration that succeeds has done. *)
Lemma register_user_success
  (E : env) (user_data : Registration.UserRegistration) (w w' : world) (body : json) :
  session w = [] ->
  register_user E user_data w = (Return body, w') ->
  let row := inserted (new_user user_data (generate_api_key E))
                      (next_id w) (now E (ticks w)) in
  find (has_email (Registration.email user_data)) (users w) = None /\
  violates_unique (users w) (new_user user_data (generate_api_key E)) = false /\
  body = registration_response (next_id w) (Registration.name user_data)
                               (Registration.email user_data) /\
  users w' = (users w ++ [row])%list.
Proof.
  intros Hsession Hrun. cbv zeta.
  destruct (find (has_email (Registration.email user_data)) (users w))
    as [existing |] eqn:Hfresh.
  { rewrite (register_user_conflict E user_data w existing Hfresh) in Hrun.
    discriminate. }
  pose proof (flush_one (now E) (new_user user_data (generate_api_key E))
                        (users w) (next_id w) (ticks w)) as Hflush.
  destruct (violates_unique (users w) (new_user user_data (generate_api_key E)))
    eqn:Hfree.
  { destruct (register_user_refused E user_data w Hfresh) as (w0 & Hrefused & _).
    - now rewrite Hsession.
    - rewrite Hrefused in Hrun. discriminate. }
  pose proof (register_user_persisted E user_data w _ _ _ Hfresh
                ltac:(rewrite Hsession; exact Hflush)) as Hpersisted.
  change (generate_api_key E)
    with (api_key (new_user user_data (generate_api_key E))) in Hpersisted at 1.
  rewrite (find_inserted _ _ _ _ Hfree) in Hpersisted.
  rewrite Hpersisted in Hrun. injection Hrun as <- <-.
  repeat split.
  match goal with
  | |- context [send_api_key_email E ?e ?n ?k ?w0] =>
      destruct (send_api_key_email_returns E e n k w0) as (sent & events & Hmail)
  end.
  now rewrite Hmail.
Qed.

(** A registration with a fresh email and a fresh key is persisted and
    answered with the success body, whatever the notification does. *)
Lemma register_user_fresh
  (E : env) (user_data : Registration.UserRegistration) (w : world) :
  session w = [] ->
  find (has_email (Registration.email user_data)) (users w) = None ->
  violates_unique (users w) (new_user user_data (generate_api_key E)) = false ->
  let row := inserted (new_user user_data (generate_api_key E))
                      (next_id w) (now E (ticks w)) in
  register_user E user_data w =
  (Return (registration_response (next_id w) (Registration.name user_data)
                                 (Registration.email user_data)),
   snd (send_api_key_email E (Registration.email user_data)
          (Registration.name user_data) (generate_api_key E)
          {| users := (users w ++ [row])%list; session := [];
             next_id := (next_id w + 1)%Z; ticks := S (ticks w);
             trace := (trace w ++
                       [ DbQuery (ByEmail (Registration.email user_data));
                         DbCommit;
                         DbQuery (Refresh (generate_api_key E)) ])%list |})).
Proof.
  intros Hsession Hfresh Hfree. cbv zeta.
  pose proof (flush_one (now E) (new_user user_data (generate_api_key E))
                        (users w) (next_id w) (ticks w)) as Hflush.
  rewrite Hfree in Hflush.
  pose proof (register_user_persisted E user_data w _ _ _ Hfresh
                ltac:(rewrite Hsession; exact Hflush)) as Hpersisted.
  change (generate_api_key E)
    with (api_key (new_user user_data (generate_api_key E))) in Hpersisted at 1.
  rewrite (find_inserted _ _ _ _ Hfree) in Hpersisted.
  exact Hpersisted.
Qed.

(** ** C4: registering an email twice *)

(** C4. A registration whose email is that of a stored account raises
    [HTTPException] 400 with the detail ["User with this email already
    exists"], which is none of the validators' messages, and leaves the
    table as it is; after a registration has succeeded, a second one with
    the same email is refused in this way and the table holds exactly one
    account with that email. *)
Theorem register_user_duplicate_email (E : env) (w : world) :
  (forall user_data existing,
     In existing (users w) ->
     email existing = Registration.email user_data ->
     exists w',
       register_user E user_data w =
       (Raise (HTTPException 400 "User with this email already exists"), w') /\
       users w' = users w /\
       http_response_of (fst (register_user E user_data w)) =
       (400%Z, JObj [("detail", JStr "User with this email already exists")])) /\
  (forall first body w1 E2 second,
     session w = [] ->
     register_user E first w = (Return body, w1) ->
     Registration.email second = Registration.email first ->
     exists w2,
       register_user E2 second w1 =
       (Raise (HTTPException 400 "User with this email already exists"), w2) /\
       users w2 = users w1 /\
       count_email (Registration.email first) (users w2) = 1%nat) /\
  ~ In "User with this email already exists" Registration.validator_messages.
Proof.
  assert (Hconflict :
            forall E0 w0 user_data existing,
              In existing (users w0) ->
              email existing = Registration.email user_data ->
              exists w',
                register_user E0 user_data w0 =
                (Raise (HTTPException 400 "User with this email already exists"), w') /\
                users w' = users w0).
  { intros E0 w0 user_data existing Hin Hemail.
    destruct (find_has_email _ _ _ Hin Hemail) as [found Hfound].
    rewrite (register_user_conflict E0 user_data w0 found Hfound). eauto. }
  split; [| split].
  - intros user_data existing Hin Hemail.
    destruct (Hconflict E w user_data existing Hin Hemail) as (w' & Hrun & Husers).
    exists w'. rewrite Hrun. repeat split. exact Husers.
  - intros first body w1 E2 second Hsession Hrun Hsame.
    destruct (register_user_success E first w w1 body Hsession Hrun)
      as (Hfresh & _ & _ & Husers).
    set (row := inserted (new_user first (generate_api_key E))
                         (next_id w) (now E (ticks w))) in Husers.
    destruct (Hconflict E2 w1 second row) as (w2 & Hsecond & Hkept).
    + rewrite Husers. apply in_or_app. right. now left.
    + now rewrite Hsame.
    + exists w2. split; [exact Hsecond |]. split; [exact Hkept |].
      rewrite Hkept, Husers, count_email_app, (count_email_absent _ _ Hfresh).
      unfold count_email, has_email. cbn [List.filter email row inserted new_user].
      now rewrite String.eqb_refl.
  - unfold Registration.validator_messages. intros H.
    repeat (destruct H as [H | H]; [discriminate H |]). exact H.
Qed.

Lemma register_user_duplicate_email_witness :
  let E := Sample.environment Sample.provider_503 in
  (In Sample.ana_row (users (Sample.world_of [Sample.ana_row])) /\
   email Sample.ana_row = Registration.email Sample.ana /\
   exists w',
     register_user E Sample.ana (Sample.world_of [Sample.ana_row]) =
     (Raise (HTTPException 400 "User with this email already exists"), w') /\
     users w' = [Sample.ana_row]) /\
  (session Sample.empty_world = [] /\
   fst (register_user E Sample.ana Sample.empty_world) =
     Return (registration_response 1 "Ana" "ana@x.com") /\
   exists w2,
     register_user E Sample.ana (snd (register_user E Sample.ana Sample.empty_world)) =
     (Raise (HTTPException 400 "User with this email already exists"), w2) /\
     users w2 = users (snd (register_user E Sample.ana Sample.empty_world)) /\
     count_email "ana@x.com" (users w2) = 1%nat).
Proof.
  cbv zeta. split.
  - split; [now left |]. split; [reflexivity |].
    destruct (proj1 (register_user_duplicate_email
                       (Sample.environment Sample.provider_503)
                       (Sample.world_of [Sample.ana_row]))
                    Sample.ana Sample.ana_row (or_introl eq_refl) eq_refl)
      as (w' & Hrun & Husers & _).
    exists w'. split; [exact Hrun | exact Husers].
  - split; [reflexivity |]. split; [reflexivity |].
    exact (proj1 (proj2 (register_user_duplicate_email
                           (Sample.environment Sample.provider_503)
                           Sample.empty_world))
                 Sample.ana
                 (registration_response 1 "Ana" "ana@x.com")
                 (snd (register_user (Sample.environment Sample.provider_503)
                                     Sample.ana Sample.empty_world))
                 (Sample.environment Sample.provider_503)
                 Sample.ana eq_refl eq_refl eq_refl).
Defined.

(** ** C5: the body of a successful registration *)

(** C5. The body of a successful registration is [success], [message] and
    [user] with the [id], [name] and [email] of the row that was inserted;
    no member is named [api_key], and the body is the same whatever key was
    generated (it is the same in every environment). *)
Theorem register_user_response
  (E : env) (user_data : Registration.UserRegistration) (w w' : world) (body : json) :
  session w = [] ->
  register_user E user_data w = (Return body, w') ->
  body =
    JObj [ ("success", JBool true);
           ("message", JStr "Registration successful! Check your email for your API key.");
           ("user", JObj [ ("id", JNum (next_id w));
                           ("name", JStr (Registration.name user_data));
                           ("email", JStr (Registration.email user_data)) ]) ] /\
  json_keys body = ["success"; "message"; "user"; "id"; "name"; "email"] /\
  ~ In "api_key" (json_keys body) /\
  (exists row,
     In row (users w') /\
     id row = Some (next_id w) /\
     name row = Registration.name user_data /\
     email row = Registration.email user_data /\
     api_key row = generate_api_key E) /\
  (forall E2 body2 w2,
     register_user E2 user_data w = (Return body2, w2) -> body2 = body).
Proof.
  intros Hsession Hrun.
  destruct (register_user_success E user_data w w' body Hsession Hrun)
    as (_ & _ & Hbody & Husers).
  subst body. split; [reflexivity |]. split; [reflexivity |]. split; [| split].
  - cbn. intros H. repeat (destruct H as [H | H]; [discriminate H |]). exact H.
  - eexists. split.
    + rewrite Husers. apply in_or_app. right. left. reflexivity.
    + repeat split.
  - intros E2 body2 w2 Hrun2.
    now destruct (register_user_success E2 user_data w w2 body2 Hsession Hrun2)
      as (_ & _ & -> & _).
Qed.

Lemma register_user_response_witness :
  let E := Sample.environment Sample.provider_503 in
  session Sample.empty_world = [] /\
  fst (register_user E Sample.ana Sample.empty_world) =
    Return (JObj [ ("success", JBool true);
                   ("message", JStr "Registration successful! Check your email for your API key.");
                   ("user", JObj [ ("id", JNum 1);
                                   ("name", JStr "Ana");
                                   ("email", JStr "ana@x.com") ]) ]) /\
  ~ In "api_key"
       (json_keys (registration_response 1 "Ana" "ana@x.com")) /\
  generate_api_key E = "zf_0123456789ab4def81234567".
Proof.
  cbv zeta. split; [reflexivity |]. split; [reflexivity |]. split; [| reflexivity].
  exact (proj1 (proj2 (proj2 (register_user_response
                                (Sample.environment Sample.provider_503)
                                Sample.ana Sample.empty_world
                                (snd (register_user
                                        (Sample.environment Sample.provider_503)
                                        Sample.ana Sample.empty_world))
                                (registration_response 1 "Ana" "ana@x.com")
                                eq_refl eq_refl)))).
Defined.

(** ** C6: the notification is best effort *)

Lemma send_api_key_email_store
  (E : env) (email name key : string) (w : world) :
  users (snd (send_api_key_email E email name key w)) = users w.
Proof.
  destruct (send_api_key_email_returns E email name key w)
    as (sent & events & Hmail).
  now rewrite Hmail.
Qed.

(** C6. The outcome of a registration and the table it leaves do not
    depend on the notification collaborator (the relay and the settings of
    the mail service); in particular, when the row is persisted and the
    relay raises, the caller receives the success body and the failure
    shows only as a printed line. *)
Theorem register_user_notification_best_effort
  (E : env) (user_data : Registration.UserRegistration) (w : world) :
  (forall send key sender server port,
     let E' := with_notification E send key sender server port in
     fst (register_user E' user_data w) = fst (register_user E user_data w) /\
     users (snd (register_user E' user_data w)) =
     users (snd (register_user E user_data w))) /\
  (forall error,
     session w = [] ->
     find (has_email (Registration.email user_data)) (users w) = None ->
     violates_unique (users w) (new_user user_data (generate_api_key E)) = false ->
     opt_truthy (BREVO_SENDER_EMAIL E) = true ->
     opt_truthy (BREVO_API_KEY E) = true ->
     (forall mail, aiosmtplib_send E mail = Some error) ->
     exists w' mail,
       register_user E user_data w =
       (Return (registration_response (next_id w) (Registration.name user_data)
                                      (Registration.email user_data)), w') /\
       users w' =
       (users w ++ [inserted (new_user user_data (generate_api_key E))
                             (next_id w) (now E (ticks w))])%list /\
       trace w' =
       (trace w ++
        [ DbQuery (ByEmail (Registration.email user_data));
          DbCommit;
          DbQuery (Refresh (generate_api_key E));
          SmtpSend mail;
          Printed (LogEmailFailed error (Registration.email user_data)
                                (generate_api_key E)) ])%list).
Proof.
  split.
  - intros send key sender server port E'.
    destruct (find (has_email (Registration.email user_data)) (users w))
      as [existing |] eqn:Hfresh.
    { rewrite (register_user_conflict E' user_data w existing Hfresh).
      rewrite (register_user_conflict E user_data w existing Hfresh).
      now split. }
    destruct (flush (now E)
                (session w ++ [new_user user_data (generate_api_key E)])%list
                (users w) (next_id w) (ticks w)) as [[[rows next] t] |] eqn:Hflush.
    + pose proof (register_user_persisted E user_data w rows next t Hfresh Hflush)
        as H.
      pose proof (register_user_persisted E' user_data w rows next t Hfresh Hflush)
        as H'.
      change (generate_api_key E') with (generate_api_key E) in H'.
      destruct (find (fun r => api_key r =? generate_api_key E) rows) as [row |].
      * rewrite H, H'. cbn [fst snd]. split; [reflexivity |].
        now rewrite !send_api_key_email_store.
      * destruct H as (w1 & H & Hrows). destruct H' as (w1' & H' & Hrows').
        rewrite H, H'. cbn [fst snd]. now rewrite Hrows, Hrows'.
    + destruct (register_user_refused E user_data w Hfresh Hflush)
        as (w1 & H & Hrows).
      destruct (register_user_refused E' user_data w Hfresh Hflush)
        as (w1' & H' & Hrows').
      rewrite H, H'. cbn [fst snd]. now rewrite Hrows, Hrows'.
  - intros error Hsession Hfresh Hfree Hsender Hkey Hdown.
    rewrite (register_user_fresh E user_data w Hsession Hfresh Hfree).
    match goal with
    | |- context [send_api_key_email E ?e ?n ?k ?w0] =>
        destruct (send_api_key_email_failure E e n k w0 error Hsender Hkey Hdown)
          as (mail & Hmail)
    end.
    rewrite Hmail. cbn [snd]. eexists. exists mail.
    split; [reflexivity |]. split; [reflexivity |].
    cbn [trace]. now rewrite <- app_assoc.
Qed.

Lemma register_user_notification_best_effort_witness :
  let E := Sample.environment Sample.provider_503 in
  session Sample.empty_world = [] /\
  find (has_email "ana@x.com") (users Sample.empty_world) = None /\
  violates_unique (users Sample.empty_world)
                  (new_user Sample.ana (generate_api_key E)) = false /\
  opt_truthy (BREVO_SENDER_EMAIL E) = true /\
  opt_truthy (BREVO_API_KEY E) = true /\
  (forall mail, aiosmtplib_send E mail = Some (Error "SMTPConnectError")) /\
  exists w' mail,
    register_user E Sample.ana Sample.empty_world =
    (Return (registration_response 1 "Ana" "ana@x.com"), w') /\
    users w' = [Sample.ana_row] /\
    trace w' =
    [ DbQuery (ByEmail "ana@x.com");
      DbCommit;
      DbQuery (Refresh "zf_0123456789ab4def81234567");
      SmtpSend mail;
      Printed (LogEmailFailed (Error "SMTPConnectError") "ana@x.com"
                            "zf_0123456789ab4def81234567") ].
Proof.
  cbv zeta. repeat (split; [reflexivity |]).
  exact (proj2 (register_user_notification_best_effort
                  (Sample.environment Sample.provider_503)
                  Sample.ana Sample.empty_world)
               (Error "SMTPConnectError")
               eq_refl eq_refl eq_refl eq_refl eq_refl (fun _ => eq_refl)).
Defined.

(** ** C8: the API key *)

Section HexDigits.

Local Open Scope Z_scope.








End HexDigits.





(** * Further properties *)

(** ** Characters *)

Ltac by_cases_on_ascii c :=
  destruct c as [[] [] [] [] [] [] [] []]; reflexivity.







Lemma lower_space (c : ascii) :
  Ascii.eqb (PyStr.lower c) " " = Ascii.eqb c " ".
Proof. by_cases_on_ascii c. Qed.

Lemma upper_space (c : ascii) :
  Ascii.eqb (PyStr.upper c) " " = Ascii.eqb c " ".
Proof. by_cases_on_ascii c. Qed.

(** ** Field labels *)








(** ** The formatter and the fields it skips *)

Lemma emitted_filter_api_key (form_data : dict value) :
  List.filter emitted
    (List.filter (fun item => negb (fst item =? "api_key")) form_data) =
  List.filter emitted form_data.
Proof.
  induction form_data as [|item rest IH]; simpl; [reflexivity |].
  unfold emitted at 2.
  destruct (negb (fst item =? "api_key")) eqn:Hkey; simpl.
  - unfold emitted at 1. rewrite Hkey. simpl.
    destruct (truthy (snd item)); now rewrite IH.
  - exact IH.
Qed.

Lemma emitted_filter_emitted (form_data : dict value) :
  List.filter emitted (List.filter emitted form_data) = List.filter emitted form_data.
Proof.
  induction form_data as [|item rest IH]; simpl; [reflexivity |].
  destruct (emitted item) eqn:Hitem; simpl; [rewrite Hitem |]; now rewrite IH.
Qed.

Lemma format_message_by_filter (form_data : dict value) :
  format_message form_data =
  message_header ++
  join (List.map field_line (List.filter emitted form_data)) ++
  message_footer.
Proof.
  unfold format_message. rewrite fold_left_format_step. apply append_assoc.
Qed.

(** X2. The message depends only on the fields that get a line: leaving
    out the [api_key] field, or the fields whose value is empty or [None],
    before formatting changes nothing; with no such field left the message
    is the header followed by the footer. *)
Theorem format_message_skips (form_data : dict value) :
  format_message
    (List.filter (fun item => negb (fst item =? "api_key")) form_data) =
  format_message form_data /\
  format_message (List.filter emitted form_data) = format_message form_data /\
  (List.filter emitted form_data = [] ->
   format_message form_data = message_header ++ message_footer).
Proof.
  split; [| split].
  - rewrite (format_message_by_filter form_data), format_message_by_filter.
    now rewrite emitted_filter_api_key.
  - rewrite (format_message_by_filter form_data), format_message_by_filter.
    now rewrite emitted_filter_emitted.
  - intros Hnone. rewrite (format_message_by_filter form_data), Hnone.
    reflexivity.
Qed.

Lemma format_message_skips_witness :
  List.filter emitted [("api_key", VStr "zf_1"); ("budget", VStr ""); ("note", VNone)] = [] /\
  format_message [("api_key", VStr "zf_1"); ("budget", VStr ""); ("note", VNone)] =
  message_header ++ message_footer.
Proof.
  split; [reflexivity |].
  exact (proj2 (proj2 (format_message_skips
                         [("api_key", VStr "zf_1"); ("budget", VStr ""); ("note", VNone)]))
               eq_refl).
Defined.

(** ** The recipient number, further *)





(** ** The database target *)

Lemma replace_first_prefix (old new s : string) :
  String.prefix old s = true ->
  PyText.replace_first old new s = new ++ PyText.drop (String.length old) s.
Proof.
  intros H. destruct s; cbn [PyText.replace_first]; now rewrite H.
Qed.

(** X4. The target handed to [create_engine] is never empty and never
    starts with [postgres://]: a URL with that scheme is passed on with the
    scheme [postgresql://] and the rest unchanged, any other non-empty URL
    is passed on as it is, and without a URL (unset or empty) the local
    SQLite file is used. *)
Theorem engine_url_scheme (DATABASE_URL : option string) :
  PyText.startswith "postgres://" (Config.engine_url DATABASE_URL) = false /\
  Config.engine_url DATABASE_URL <> EmptyString /\
  (forall rest,
     Config.engine_url (Some ("postgres://" ++ rest)) = "postgresql://" ++ rest) /\
  (forall u,
     u <> EmptyString ->
     PyText.startswith "postgres://" u = false ->
     Config.engine_url (Some u) = u) /\
  Config.engine_url None = "sqlite:///./zapform.db" /\
  Config.engine_url (Some EmptyString) = "sqlite:///./zapform.db".
Proof.
  assert (Hkeep : forall u,
             u <> EmptyString ->
             PyText.startswith "postgres://" u = false ->
             Config.engine_url (Some u) = u).
  { intros u Hu Hscheme. unfold Config.engine_url, Config.normalize.
    apply String.eqb_neq in Hu. rewrite Hu, Hscheme. cbn [negb andb].
    now rewrite Hu. }
  split; [| split; [| split; [| split; [| split]]]];
    try reflexivity; try exact Hkeep.
  - destruct DATABASE_URL as [u |]; [| reflexivity].
    destruct (u =? "") eqn:Hu.
    + apply String.eqb_eq in Hu. subst u. reflexivity.
    + destruct (PyText.startswith "postgres://" u) eqn:Hscheme.
      * unfold Config.engine_url, Config.normalize.
        rewrite Hu, Hscheme. cbn [negb andb].
        rewrite (replace_first_prefix _ _ _ Hscheme). reflexivity.
      * apply String.eqb_neq in Hu. now rewrite (Hkeep u Hu Hscheme).
  - destruct DATABASE_URL as [u |]; [| discriminate].
    destruct (u =? "") eqn:Hu.
    + apply String.eqb_eq in Hu. subst u. discriminate.
    + destruct (PyText.startswith "postgres://" u) eqn:Hscheme.
      * unfold Config.engine_url, Config.normalize.
        rewrite Hu, Hscheme. cbn [negb andb].
        rewrite (replace_first_prefix _ _ _ Hscheme). discriminate.
      * apply String.eqb_neq in Hu. now rewrite (Hkeep u Hu Hscheme).
  - intros rest. destruct rest; reflexivity.
Qed.

Lemma engine_url_scheme_witness :
  "mysql://db.example/zapform" <> EmptyString /\
  PyText.startswith "postgres://" "mysql://db.example/zapform" = false /\
  Config.engine_url (Some "mysql://db.example/zapform") = "mysql://db.example/zapform".
Proof.
  split; [discriminate |]. split; [reflexivity |].
  exact (proj1 (proj2 (proj2 (proj2 (engine_url_scheme None))))
               "mysql://db.example/zapform" ltac:(discriminate) eq_refl).
Defined.

(** ** [strip] *)











(** ** The validators of the required fields *)




(** ** Regular expressions *)












(** ** The email validator *)















(** The edge cases of the pattern. *)
Example email_validator_edges :
  Validators.email_must_be_valid " ana@x.com" =
    Validators.ValueError "Invalid email format" /\
  Validators.email_must_be_valid "ana@x" =
    Validators.ValueError "Invalid email format" /\
  Validators.email_must_be_valid "a@b@x.com" =
    Validators.ValueError "Invalid email format" /\
  Validators.email_must_be_valid "ana@x.co.uk" = Validators.Accepted "ana@x.co.uk".
Proof. repeat split. Qed.

(** ** The validated registration *)





(** ** The form-encoded endpoint *)

Lemma dict_set_new {V : Type} (d : dict V) (key : string) (v : V) :
  (forall item, In item d -> fst item <> key) ->
  dict_set d key v = (d ++ [(key, v)])%list.
Proof.
  induction d as [|[k x] d IH]; intros Hnew; simpl; [reflexivity |].
  assert (Hk : (k =? key) = false)
    by (apply String.eqb_neq; exact (Hnew (k, x) (or_introl eq_refl))).
  rewrite Hk, IH; [reflexivity |]. intros item Hitem. apply Hnew. now right.
Qed.

Lemma given_fields_keys (offered : list (string * option string)) (item : string * value) :
  In item (given_fields offered) -> In (fst item) (List.map fst offered).
Proof.
  unfold given_fields. intros H. apply in_flat_map in H as (o & Ho & Hitem).
  apply in_map_iff. exists o. split; [| exact Ho].
  destruct (snd o) as [s |]; [| contradiction].
  destruct (negb (s =? "")); [| contradiction].
  destruct Hitem as [<- | []]. reflexivity.
Qed.

Lemma set_if_given_step
  (offered : list (string * option string)) (key : string) (field : option string) :
  ~ In key (List.map fst offered) ->
  set_if_given key field (given_fields offered) =
  given_fields (offered ++ [(key, field)])%list.
Proof.
  intros Hnew. unfold given_fields at 2. rewrite flat_map_app. simpl.
  fold (given_fields offered). unfold set_if_given.
  destruct field as [s |]; [| now rewrite app_nil_r].
  destruct (negb (s =? "")); [| now rewrite app_nil_r].
  rewrite app_nil_r. apply dict_set_new.
  intros item Hitem Hkey. apply Hnew. rewrite <- Hkey.
  now apply given_fields_keys.
Qed.

Lemma given_fields_emitted (offered : list (string * option string)) :
  ~ In "api_key" (List.map fst offered) ->
  List.filter emitted (given_fields offered) = given_fields offered.
Proof.
  unfold given_fields.
  induction offered as [|[k f] offered IH]; intros Hkeys; simpl; [reflexivity |].
  rewrite filter_app, IH by (intros H; apply Hkeys; now right).
  f_equal. destruct f as [s |]; [| reflexivity].
  destruct (negb (s =? "")) eqn:Hs; [| reflexivity].
  simpl. unfold emitted. simpl. rewrite Hs.
  assert (Hk : (k =? "api_key") = false).
  { apply String.eqb_neq. intros ->. apply Hkeys. now left. }
  now rewrite Hk.
Qed.

(** X9. The form-encoded endpoint passes on the seven named fields that
    were filled in (neither [None] nor empty), in the fixed order name,
    email, phone, message, budget, company, subject, and each of them gets
    a line of the message. *)
Theorem collect_fields_order
  (name email phone message budget company subject : option string) :
  let offered :=
    [ ("name", name); ("email", email); ("phone", phone); ("message", message);
      ("budget", budget); ("company", company); ("subject", subject) ] in
  collect_fields name email phone message budget company subject =
    given_fields offered /\
  List.filter emitted
    (collect_fields name email phone message budget company subject) =
    collect_fields name email phone message budget company subject.
Proof.
  cbv zeta.
  assert (Hcollect :
            collect_fields name email phone message budget company subject =
            given_fields
              [ ("name", name); ("email", email); ("phone", phone);
                ("message", message); ("budget", budget); ("company", company);
                ("subject", subject) ]).
  { unfold collect_fields. cbv zeta.
    change (@nil (string * value)) with (given_fields []).
    repeat (rewrite set_if_given_step;
            [cbn [app] | simpl; intros H;
                         repeat (destruct H as [H | H]; [discriminate H |]);
                         exact H]).
    reflexivity. }
  split; [exact Hcollect |].
  rewrite Hcollect. apply given_fields_emitted.
  simpl. intros H. repeat (destruct H as [H | H]; [discriminate H |]). exact H.
Qed.

Lemma submit_form_html_found
  (E : env) (key : string)
  (name email phone message budget company subject : option string)
  (w : world) (user : User) :
  find (has_active_api_key key) (users w) = Some user ->
  submit_form_html E key name email phone message budget company subject w =
  (Return (RedirectResponse "/success.html" 302),
   snd (send_whatsapp_message E (whatsapp_token user) (phone_number_id user)
          (recipient_number user)
          (collect_fields name email phone message budget company subject)
          (after_lookup key w))).
Proof.
  intros Hfound. unfold submit_form_html, query_first, after_lookup. run.
  rewrite Hfound.
  destruct (send_whatsapp_message_returns E (whatsapp_token user)
              (phone_number_id user) (recipient_number user)
              (collect_fields name email phone message budget company subject)
              {| users := users w; session := session w; next_id := next_id w;
                 ticks := ticks w;
                 trace := (trace w ++ [DbQuery (ByActiveApiKey key)])%list |})
    as (result & w1 & Hsend & _).
  rewrite Hsend. reflexivity.
Qed.

(** X10. With a key of an active account the form-encoded endpoint always
    answers with the redirect to [/success.html] (302), whatever the
    provider does (also for a 200 answer that makes the JSON endpoint
    fail), after one lookup and one request to the provider that carries
    the message of the collected fields for the account's recipient. *)
Theorem submit_form_html_redirects
  (E : env) (key : string)
  (name email phone message budget company subject : option string)
  (w : world) (user : User) :
  find (has_active_api_key key) (users w) = Some user ->
  exists w' line,
    submit_form_html E key name email phone message budget company subject w =
    (Return (RedirectResponse "/success.html" 302), w') /\
    users w' = users w /\
    trace w' =
    (trace w ++
     [ DbQuery (ByActiveApiKey key);
       Printed (LogSending (recipient_number user));
       HttpPost (whatsapp_request (whatsapp_token user) (phone_number_id user)
                   (recipient_number user)
                   (format_message
                      (collect_fields name email phone message budget company
                                      subject)));
       Printed line ])%list.
Proof.
  intros Hfound.
  rewrite (submit_form_html_found E key name email phone message budget company
             subject w user Hfound).
  destruct (send_whatsapp_message_returns E (whatsapp_token user)
              (phone_number_id user) (recipient_number user)
              (collect_fields name email phone message budget company subject)
              (after_lookup key w)) as (result & w1 & Hsend & Husers & _).
  destruct (send_whatsapp_message_trace E (whatsapp_token user)
              (phone_number_id user) (recipient_number user)
              (collect_fields name email phone message budget company subject)
              (after_lookup key w)) as [line Hline].
  eexists. exists line. split; [reflexivity |]. split.
  - rewrite Hsend. cbn [snd]. rewrite Husers. reflexivity.
  - rewrite Hline. unfold after_lookup, emit. cbn [snd trace].
    now rewrite <- app_assoc.
Qed.

Lemma submit_form_html_redirects_witness :
  let E := Sample.environment (Sample.provider_200 (JObj [("messages", JArr [])])) in
  let w := Sample.world_of [Sample.ana_row] in
  find (has_active_api_key "zf_0123456789ab4def81234567") (users w) =
    Some Sample.ana_row /\
  fst (submit_form_html E "zf_0123456789ab4def81234567"
         (Some "Bo") None None (Some "Hello") None None None w) =
    Return (RedirectResponse "/success.html" 302) /\
  fst (submit_form_api E Sample.hello w) =
    Raise (HTTPException 500 "Failed to submit form").
Proof.
  cbv zeta. split; [reflexivity |]. split; [| reflexivity].
  destruct (submit_form_html_redirects
              (Sample.environment (Sample.provider_200 (JObj [("messages", JArr [])])))
              "zf_0123456789ab4def81234567"
              (Some "Bo") None None (Some "Hello") None None None
              (Sample.world_of [Sample.ana_row]) Sample.ana_row eq_refl)
    as (w' & line & Hrun & _).
  now rewrite Hrun.
Defined.



(** ** The table across requests *)

Lemma submit_form_api_store
  (E : env) (form_data : dict value) (w : world) :
  users (snd (submit_form_api E form_data w)) = users w /\
  session (snd (submit_form_api E form_data w)) = session w /\
  next_id (snd (submit_form_api E form_data w)) = next_id w.
Proof.
  destruct (truthy (dict_get form_data "api_key")) eqn:Hkey.
  2: { rewrite (submit_form_api_falsy_key E form_data w Hkey). now repeat split. }
  unfold submit_form_api, query_first. run. rewrite Hkey. run.
  destruct (find (has_active_api_key (py_str (dict_get form_data "api_key")))
              (users w)) as [user |]; [| now repeat split].
  match goal with
  | |- context [send_whatsapp_message E ?t ?p ?r ?f ?w0] =>
      destruct (send_whatsapp_message_returns E t p r f w0)
        as (result & w1 & Hsend & Hu & Hs & Hn)
  end.
  rewrite Hsend. cbn [users session next_id] in Hu, Hs, Hn.
  destruct result as [| | | | | members]; run; try now repeat split.
  destruct (get_default members "messages" (JArr [JObj []]))
    as [| | | [| c s] | [| first rest] |]; run; try now repeat split.
  destruct first as [| | | | | first]; run; now repeat split.
Qed.

Lemma submit_form_html_store
  (E : env) (key : string)
  (name email phone message budget company subject : option string) (w : world) :
  users (snd (submit_form_html E key name email phone message budget company
                               subject w)) = users w /\
  session (snd (submit_form_html E key name email phone message budget company
                                 subject w)) = session w /\
  next_id (snd (submit_form_html E key name email phone message budget company
                                 subject w)) = next_id w.
Proof.
  destruct (find (has_active_api_key key) (users w)) as [user |] eqn:Hfound.
  - rewrite (submit_form_html_found E key name email phone message budget company
               subject w user Hfound).
    destruct (send_whatsapp_message_returns E (whatsapp_token user)
                (phone_number_id user) (recipient_number user)
                (collect_fields name email phone message budget company subject)
                (after_lookup key w)) as (result & w1 & Hsend & Hu & Hs & Hn).
    rewrite Hsend. cbn [snd]. now rewrite Hu, Hs, Hn.
  - unfold submit_form_html, query_first. run. rewrite Hfound. now repeat split.
Qed.

(** X12. No submission writes to the store: after either submission
    endpoint, whatever the request and the provider, the table, the
    session and the key counter are as before. *)
Theorem submissions_never_write (E : env) (w : world) :
  (forall form_data,
     users (snd (submit_form_api E form_data w)) = users w /\
     session (snd (submit_form_api E form_data w)) = session w /\
     next_id (snd (submit_form_api E form_data w)) = next_id w) /\
  (forall key name email phone message budget company subject,
     users (snd (submit_form_html E key name email phone message budget company
                                  subject w)) = users w /\
     session (snd (submit_form_html E key name email phone message budget company
                                    subject w)) = session w /\
     next_id (snd (submit_form_html E key name email phone message budget company
                                    subject w)) = next_id w).
Proof.
  split.
  - intros form_data. apply submit_form_api_store.
  - intros. apply submit_form_html_store.
Qed.

Lemma violates_unique_false (rows : list User) (u : User) :
  violates_unique rows u = false ->
  ~ In (email u) (List.map email rows) /\ ~ In (api_key u) (List.map api_key rows).
Proof.
  unfold violates_unique.
  induction rows as [|r rows IH]; simpl; intros H; [tauto |].
  apply orb_false_iff in H as [Hr Hrows]. apply orb_false_iff in Hr as [He Hk].
  apply String.eqb_neq in He, Hk. destruct (IH Hrows) as [IHe IHk].
  split; intros [Heq | Hin]; auto.
Qed.

Lemma unique_columns_insert (rows : list User) (u : User) (next clock : Z) :
  unique_columns rows ->
  violates_unique rows u = false ->
  unique_columns (rows ++ [inserted u next clock])%list.
Proof.
  intros [He Hk] Hfree. apply violates_unique_false in Hfree as [Hnew_e Hnew_k].
  unfold unique_columns. rewrite !map_app. cbn [List.map inserted email api_key].
  split; apply NoDup_app; try assumption;
    try (constructor; [intros [] | constructor]);
    intros a Ha [<- | []]; contradiction.
Qed.

(** A flush keeps both columns unique and only adds rows at the end. *)
Lemma flush_unique (clock : nat -> Z) (pending : list User) :
  forall rows next t rows' next' t',
    flush clock pending rows next t = Some (rows', next', t') ->
    (unique_columns rows -> unique_columns rows') /\
    exists added, rows' = (rows ++ added)%list.
Proof.
  induction pending as [|u pending IH]; intros rows next t rows' next' t' H;
    cbn [flush] in H.
  - injection H as <- <- <-. split; [auto |]. exists []. now rewrite app_nil_r.
  - destruct (violates_unique rows u) eqn:Hfree; [discriminate |].
    destruct (IH _ _ _ _ _ _ H) as [Hunique [added ->]]. split.
    + intros Hrows. apply Hunique. now apply unique_columns_insert.
    + exists (inserted u next (clock t) :: added). now rewrite <- app_assoc.
Qed.

(** The table after a registration: the table before, or the result of
    the flush. *)
Lemma register_user_store
  (E : env) (user_data : Registration.UserRegistration) (w : world) :
  users (snd (register_user E user_data w)) = users w \/
  exists rows next t,
    flush (now E) (session w ++ [new_user user_data (generate_api_key E)])%list
          (users w) (next_id w) (ticks w) = Some (rows, next, t) /\
    users (snd (register_user E user_data w)) = rows.
Proof.
  destruct (find (has_email (Registration.email user_data)) (users w))
    as [existing |] eqn:Hfresh.
  { left. now rewrite (register_user_conflict E user_data w existing Hfresh). }
  destruct (flush (now E)
              (session w ++ [new_user user_data (generate_api_key E)])%list
              (users w) (next_id w) (ticks w)) as [[[rows next] t] |] eqn:Hflush.
  - right. exists rows, next, t. split; [reflexivity |].
    pose proof (register_user_persisted E user_data w rows next t Hfresh Hflush) as H.
    destruct (find (fun r => api_key r =? generate_api_key E) rows) as [row |].
    + rewrite H. cbn [snd]. apply send_api_key_email_store.
    + destruct H as (w' & -> & Hrows). exact Hrows.
  - left. destruct (register_user_refused E user_data w Hfresh Hflush)
      as (w' & -> & Hrows). exact Hrows.
Qed.

(** X13. Registration keeps the two unique columns unique: if no two rows
    share an email or an API key before [register_user], none do after it,
    whatever its outcome; and it never changes or removes a row, it only
    adds rows at the end of the table. *)
Theorem register_user_keeps_unique
  (E : env) (user_data : Registration.UserRegistration) (w : world) :
  (unique_columns (users w) ->
   unique_columns (users (snd (register_user E user_data w)))) /\
  exists added,
    users (snd (register_user E user_data w)) = (users w ++ added)%list.
Proof.
  destruct (register_user_store E user_data w)
    as [-> | (rows & next & t & Hflush & ->)].
  - split; [auto |]. exists []. now rewrite app_nil_r.
  - exact (flush_unique _ _ _ _ _ _ _ _ Hflush).
Qed.

Lemma register_user_keeps_unique_witness :
  let E := Sample.environment Sample.provider_503 in
  unique_columns (users Sample.empty_world) /\
  unique_columns (users (snd (register_user E Sample.ana Sample.empty_world))) /\
  users (snd (register_user E Sample.ana Sample.empty_world)) = [Sample.ana_row].
Proof.
  cbv zeta.
  assert (H : unique_columns (users Sample.empty_world))
    by (split; constructor).
  split; [exact H |]. split; [| reflexivity].
  exact (proj1 (register_user_keeps_unique (Sample.environment Sample.provider_503)
                  Sample.ana Sample.empty_world) H).
Defined.

Lemma violates_unique_api_key (rows : list User) (u : User) (r : User) :
  In r rows -> api_key r = api_key u -> violates_unique rows u = true.
Proof.
  intros Hin Hkey. unfold violates_unique. apply existsb_exists.
  exists r. split; [exact Hin |]. rewrite Hkey, String.eqb_refl. apply orb_true_r.
Qed.

Lemma register_user_refused_world
  (E : env) (user_data : Registration.UserRegistration) (w : world) :
  find (has_email (Registration.email user_data)) (users w) = None ->
  flush (now E) (session w ++ [new_user user_data (generate_api_key E)])%list
        (users w) (next_id w) (ticks w) = None ->
  register_user E user_data w =
  (Raise (HTTPException 500 "Internal server error"),
   {| users := users w; session := []; next_id := next_id w; ticks := ticks w;
      trace := (trace w ++
                [ DbQuery (ByEmail (Registration.email user_data));
                  DbCommit;
                  Printed (LogRegistrationError (Error "IntegrityError"));
                  DbRollback ])%list |}).
Proof.
  intros Hfresh Hflush.
  unfold register_user, query_first, db_add, db_commit, db_rollback, set_store.
  run. rewrite Hfresh. run. rewrite Hflush. run.
  now rewrite <- !app_assoc.
Qed.

(** X14. When the generated key is already the [api_key] of a row, the
    insert is refused: [register_user] raises [HTTPException] 500
    ["Internal server error"], prints the error, rolls the session back,
    leaves the table as it was and sends no mail. *)
Theorem register_user_key_collision
  (E : env) (user_data : Registration.UserRegistration) (w : world) (taken : User) :
  session w = [] ->
  find (has_email (Registration.email user_data)) (users w) = None ->
  In taken (users w) ->
  api_key taken = generate_api_key E ->
  register_user E user_data w =
  (Raise (HTTPException 500 "Internal server error"),
   {| users := users w; session := []; next_id := next_id w; ticks := ticks w;
      trace := (trace w ++
                [ DbQuery (ByEmail (Registration.email user_data));
                  DbCommit;
                  Printed (LogRegistrationError (Error "IntegrityError"));
                  DbRollback ])%list |}) /\
  existsb is_smtp_send
    [ DbQuery (ByEmail (Registration.email user_data));
      DbCommit;
      Printed (LogRegistrationError (Error "IntegrityError"));
      DbRollback ] = false.
Proof.
  intros Hsession Hfresh Hin Hkey. split; [| reflexivity].
  apply register_user_refused_world; [exact Hfresh |].
  rewrite Hsession. cbn [app]. rewrite flush_one.
  now rewrite (violates_unique_api_key (users w)
                 (new_user user_data (generate_api_key E)) taken Hin Hkey).
Qed.

Lemma register_user_key_collision_witness :
  let E := Sample.environment Sample.provider_503 in
  let bo :=
    {| Registration.name := "Bo";
       Registration.email := "bo@x.com";
       Registration.whatsapp_token := "t2";
       Registration.phone_number_id := "p2";
       Registration.recipient_number := "+1 555 0101";
       Registration.terms := true |} in
  let w := {| users := [Sample.ana_row]; session := []; next_id := 2; ticks := 1;
              trace := [] |} in
  session w = [] /\
  find (has_email "bo@x.com") (users w) = None /\
  In Sample.ana_row (users w) /\
  api_key Sample.ana_row = generate_api_key E /\
  fst (register_user E bo w) = Raise (HTTPException 500 "Internal server error") /\
  users (snd (register_user E bo w)) = [Sample.ana_row].
Proof.
  cbv zeta. split; [reflexivity |]. split; [reflexivity |].
  split; [now left |]. split; [reflexivity |].
  pose proof (proj1 (register_user_key_collision
                (Sample.environment Sample.provider_503)
                {| Registration.name := "Bo";
                   Registration.email := "bo@x.com";
                   Registration.whatsapp_token := "t2";
                   Registration.phone_number_id := "p2";
                   Registration.recipient_number := "+1 555 0101";
                   Registration.terms := true |}
                {| users := [Sample.ana_row]; session := []; next_id := 2;
                   ticks := 1; trace := [] |}
                Sample.ana_row eq_refl eq_refl (or_introl eq_refl) eq_refl)) as H.
  rewrite H. split; reflexivity.
Defined.

(** X15. With an empty session, [register_user] returns the success body
    exactly when no row has the email and no row has the generated key. *)
Theorem register_user_succeeds_iff
  (E : env) (user_data : Registration.UserRegistration) (w : world) :
  session w = [] ->
  ((exists body w', register_user E user_data w = (Return body, w')) <->
   find (has_email (Registration.email user_data)) (users w) = None /\
   violates_unique (users w) (new_user user_data (generate_api_key E)) = false).
Proof.
  intros Hsession. split.
  - intros (body & w' & Hrun).
    destruct (register_user_success E user_data w w' body Hsession Hrun)
      as (Hfresh & Hfree & _). now split.
  - intros [Hfresh Hfree].
    rewrite (register_user_fresh E user_data w Hsession Hfresh Hfree). eauto.
Qed.

Lemma register_user_succeeds_iff_witness :
  let E := Sample.environment Sample.provider_503 in
  session Sample.empty_world = [] /\
  exists body w', register_user E Sample.ana Sample.empty_world = (Return body, w').
Proof.
  cbv zeta. split; [reflexivity |].
  exact (proj2 (register_user_succeeds_iff (Sample.environment Sample.provider_503)
                  Sample.ana Sample.empty_world eq_refl)
               (conj eq_refl eq_refl)).
Defined.


Lemma format_message_without_api_key (form_data : dict value) :
  format_message
    (List.filter (fun item => negb (fst item =? "api_key")) form_data) =
  format_message form_data.
Proof.
  rewrite (format_message_by_filter form_data), format_message_by_filter.
  now rewrite emitted_filter_api_key.
Qed.




(** ** The notification *)

(** X17. [send_api_key_email] never raises.  Without a sender address or a
    password in the environment it sends nothing, prints the key and
    returns [True]; with both it hands one mail to the relay, addressed to
    the given email and carrying the key, and returns [True] when the
    relay accepts it and [False], after printing the error and the key,
    when the relay raises. *)
Theorem send_api_key_email_outcome
  (E : env) (email name key : string) (w : world) :
  (opt_truthy (BREVO_SENDER_EMAIL E) && opt_truthy (BREVO_API_KEY E) = false ->
   send_api_key_email E email name key w =
   (Return true,
    {| users := users w; session := session w; next_id := next_id w;
       ticks := ticks w;
       trace := (trace w ++ [Printed (LogMockEmail email name key)])%list |})) /\
  (opt_truthy (BREVO_SENDER_EMAIL E) && opt_truthy (BREVO_API_KEY E) = true ->
   let mail := api_key_mail E email name key in
   mail_to mail = email /\
   mail_body mail = api_key_email_body name key /\
   send_api_key_email E email name key w =
   (Return match aiosmtplib_send E mail with
           | None => true
           | Some _ => false
           end,
    {| users := users w; session := session w; next_id := next_id w;
       ticks := ticks w;
       trace := (trace w ++
                 [ SmtpSend mail;
                   Printed match aiosmtplib_send E mail with
                           | None => LogEmailSent email
                           | Some error => LogEmailFailed error email key
                           end ])%list |})).
Proof.
  split; intros Hcred.
  - unfold send_api_key_email. run. cbn [forallb].
    rewrite andb_true_r, Hcred. reflexivity.
  - cbv zeta. split; [reflexivity |]. split; [reflexivity |].
    unfold send_api_key_email, smtp_send. run. cbn [forallb].
    rewrite andb_true_r, Hcred. cbn [negb].
    fold (api_key_mail E email name key). run.
    destruct (aiosmtplib_send E (api_key_mail E email name key)); run;
      now rewrite <- app_assoc.
Qed.

Lemma send_api_key_email_outcome_witness :
  let E := Sample.environment Sample.provider_503 in
  let unset := with_notification E (fun _ => None) None None None None in
  (opt_truthy (BREVO_SENDER_EMAIL unset) && opt_truthy (BREVO_API_KEY unset) = false /\
   send_api_key_email unset "ana@x.com" "Ana" "zf_1" Sample.empty_world =
   (Return true,
    {| users := []; session := []; next_id := 1; ticks := 0;
       trace := [Printed (LogMockEmail "ana@x.com" "Ana" "zf_1")] |})) /\
  (opt_truthy (BREVO_SENDER_EMAIL E) && opt_truthy (BREVO_API_KEY E) = true /\
   fst (send_api_key_email E "ana@x.com" "Ana" "zf_1" Sample.empty_world) =
   Return false).
Proof.
  cbv zeta. split; (split; [reflexivity |]).
  - exact (proj1 (send_api_key_email_outcome
                    (with_notification (Sample.environment Sample.provider_503)
                                       (fun _ => None) None None None None)
                    "ana@x.com" "Ana" "zf_1" Sample.empty_world) eq_refl).
  - destruct (proj2 (send_api_key_email_outcome
                       (Sample.environment Sample.provider_503)
                       "ana@x.com" "Ana" "zf_1" Sample.empty_world) eq_refl)
      as (_ & _ & H).
    now rewrite H.
Defined.

(** ** The dispatcher on a 200 answer *)

(** X18. When the provider answers 200, the dispatcher returns the decoded
    document of the answer as it is, without reading the clock; when the
    body of that answer cannot be decoded, it returns the mock identifier
    as for a failure. *)
Theorem send_whatsapp_message_ok
  (E : env) (whatsapp_token phone_number_id recipient_number : string)
  (form_data : dict value) (w : world) (response : http_response) :
  requests_post E
    (whatsapp_request whatsapp_token phone_number_id recipient_number
                      (format_message form_data)) = inl response ->
  status_code response = 200%Z ->
  (forall result,
     json_body response = Some result ->
     fst (send_whatsapp_message E whatsapp_token phone_number_id recipient_number
                                form_data w) = Return result /\
     ticks (snd (send_whatsapp_message E whatsapp_token phone_number_id
                                       recipient_number form_data w)) = ticks w) /\
  (json_body response = None ->
   fst (send_whatsapp_message E whatsapp_token phone_number_id recipient_number
                              form_data w) =
   Return (JObj [("messages",
                  JArr [JObj [("id",
                               JStr ("wamid.mock_" ++
                                     PyStr.of_int (now E (ticks w))))]])])).
Proof.
  intros Hpost Hstatus.
  rewrite send_whatsapp_message_cases. cbv zeta.
  rewrite Hpost, Hstatus. cbn [Z.eqb Pos.eqb].
  split.
  - intros result Hbody. rewrite Hbody. now split.
  - intros Hbody. now rewrite Hbody.
Qed.

Lemma send_whatsapp_message_ok_witness :
  let E := Sample.environment
             (Sample.provider_200 (JObj [("messages", JArr [JObj [("id", JStr "wamid.HBgL")]])])) in
  let request := whatsapp_request "t1" "p1" "+1 555 0100"
                   (format_message [("message", VStr "Hello")]) in
  requests_post E request =
    inl {| status_code := 200; text := "OK";
           json_body := Some (JObj [("messages", JArr [JObj [("id", JStr "wamid.HBgL")]])]) |} /\
  fst (send_whatsapp_message E "t1" "p1" "+1 555 0100" [("message", VStr "Hello")]
         Sample.empty_world) =
  Return (JObj [("messages", JArr [JObj [("id", JStr "wamid.HBgL")]])]).
Proof.
  cbv zeta. split; [reflexivity |].
  exact (proj1 (proj1 (send_whatsapp_message_ok
                         (Sample.environment
                            (Sample.provider_200
                               (JObj [("messages", JArr [JObj [("id", JStr "wamid.HBgL")]])])))
                         "t1" "p1" "+1 555 0100" [("message", VStr "Hello")]
                         Sample.empty_world
                         {| status_code := 200; text := "OK";
                            json_body := Some (JObj [("messages", JArr [JObj [("id", JStr "wamid.HBgL")]])]) |}
                         eq_refl eq_refl)
                      (JObj [("messages", JArr [JObj [("id", JStr "wamid.HBgL")]])])
                      eq_refl)).
Defined.

(** ** The two submission endpoints *)

(** X19. The two submission endpoints send the same request: for the
    same account, the JSON endpoint given the key and the fields that the
    form-encoded endpoint collects sends what the form-encoded endpoint
    sends. *)
Theorem endpoints_same_request
  (user : User) (key : string)
  (name email phone message budget company subject : option string) :
  submission_request user
    (("api_key", VStr key) ::
     collect_fields name email phone message budget company subject) =
  whatsapp_request (whatsapp_token user) (phone_number_id user)
    (recipient_number user)
    (format_message
       (collect_fields name email phone message budget company subject)).
Proof.
  unfold submission_request. f_equal.
  rewrite format_message_without_api_key.
  rewrite format_message_by_filter.
  rewrite (format_message_by_filter
             (collect_fields name email phone message budget company subject)).
  reflexivity.
Qed.

(** ** Lookup by key *)

Lemma unique_by_column {A B : Type} (f : A -> B) (l : list A) (a b : A) :
  NoDup (List.map f l) -> In a l -> In b l -> f a = f b -> a = b.
Proof.
  induction l as [|x l IH]; simpl; intros Hnodup Ha Hb Hf; [contradiction |].
  inversion Hnodup as [| ? ? Hx Hl]; subst.
  destruct Ha as [-> | Ha], Hb as [-> | Hb].
  - reflexivity.
  - exfalso. apply Hx. rewrite Hf. now apply in_map.
  - exfalso. apply Hx. rewrite <- Hf. now apply in_map.
  - now apply IH.
Qed.

(** X20. While the API keys of the table are distinct, a non-empty key
    authenticates as the active account that holds it and as no other:
    the lookup returns that account wherever it stands in the table. *)
Theorem authenticate_unique_key
  (w : world) (form_data : dict value) (account : User) :
  NoDup (List.map api_key (users w)) ->
  In account (users w) ->
  is_active account = Some true ->
  api_key account <> EmptyString ->
  dict_find form_data "api_key" = Some (VStr (api_key account)) ->
  authenticate w form_data = Some account.
Proof.
  intros Hunique Hin Hactive Hkey Hform.
  unfold authenticate, dict_get. rewrite Hform. cbn [truthy py_str].
  apply String.eqb_neq in Hkey. rewrite Hkey. cbn [negb].
  destruct (find (has_active_api_key (api_key account)) (users w))
    as [found |] eqn:Hfind.
  - apply find_some in Hfind as [Hfound Hp].
    unfold has_active_api_key in Hp. apply andb_true_iff in Hp as [Hp _].
    apply String.eqb_eq in Hp.
    now rewrite (unique_by_column api_key (users w) found account Hunique
                   Hfound Hin Hp).
  - pose proof (find_none _ _ Hfind account Hin) as Hno.
    unfold has_active_api_key in Hno.
    now rewrite String.eqb_refl, Hactive in Hno.
Qed.

Lemma authenticate_unique_key_witness :
  let w := Sample.world_of [Sample.ana_row] in
  NoDup (List.map api_key (users w)) /\
  In Sample.ana_row (users w) /\
  is_active Sample.ana_row = Some true /\
  api_key Sample.ana_row <> EmptyString /\
  dict_find Sample.hello "api_key" = Some (VStr (api_key Sample.ana_row)) /\
  authenticate w Sample.hello = Some Sample.ana_row.
Proof.
  cbv zeta.
  assert (Hu : NoDup (List.map api_key (users (Sample.world_of [Sample.ana_row]))))
    by (constructor; [intros [] | constructor]).
  split; [exact Hu |]. split; [now left |]. split; [reflexivity |].
  split; [discriminate |]. split; [reflexivity |].
  exact (authenticate_unique_key (Sample.world_of [Sample.ana_row]) Sample.hello
           Sample.ana_row Hu (or_introl eq_refl) eq_refl ltac:(discriminate) eq_refl).
Defined.
